(** * Pearl (anvil / pearll): replay buffer, TD target, updater and target sync

    A shallow embedding of

    - [src/anvil/buffers/replay_buffer.py]  (class [ReplayBuffer]),
    - [src/pearll/updaters/environment.py]  (classes [BaseDeepUpdater],
      [DeepRegression]),
    - [src/anvil/agents/dqn.py]             (method [DQN._fit]),

    together with the properties the specification states about them.

    Python objects are records, methods are computations in a state and
    exception monad over the objects they can reach, NumPy arrays are lists
    (the leading axis) and Python integers are [Z]. *)

From Stdlib Require Import ZArith Lia Bool String Ascii Uint63 Floats Ring_theory ZArithRing.
From stdpp Require Import base list.

Local Open Scope Z_scope.

(* ================================================================== *)
(** * Part I: the embedding *)
(* ================================================================== *)

(** ** The Python runtime: exceptions, mutable state, sequences *)

Module Py.

(** The exceptions the modelled code can meet. [ValueError] keeps its
    message, which tells its sources apart. *)
Inductive exn : Type :=
| ValueError (msg : string)
| IndexError
| ZeroDivisionError.

Inductive result (A : Type) : Type :=
| Ok (a : A)
| Raise (e : exn).
Arguments Ok {A} a.
Arguments Raise {A} e.

(** A statement sequence over the mutable state [S]: it returns a value or
    raises, and in both cases leaves a state behind (what was assigned
    before an exception stays assigned). *)
Definition M (S A : Type) : Type := S -> result A * S.

Definition ret {S A} (a : A) : M S A := fun s => (Ok a, s).

Definition bind {S A B} (m : M S A) (k : A -> M S B) : M S B :=
  fun s => match m s with
           | (Ok a, s') => k a s'
           | (Raise e, s') => (Raise e, s')
           end.

Definition raise {S A} (e : exn) : M S A := fun s => (Raise e, s).

(** Reading an attribute and assigning to one. *)
Definition gets {S A} (f : S -> A) : M S A := fun s => (Ok (f s), s).
Definition modify {S} (f : S -> S) : M S unit := fun s => (Ok tt, f s).

(** An expression that may raise but touches no state. *)
Definition lift {S A} (r : result A) : M S A := fun s => (r, s).

(** A method of an object held in a field of the caller's state. *)
Definition zoom {S T A} (get : S -> T) (set : T -> S -> S) (m : M T A) : M S A :=
  fun s => let (r, t) := m (get s) in (r, set t s).

Definition bind_result {A B} (r : result A) (k : A -> result B) : result B :=
  match r with Ok a => k a | Raise e => Raise e end.

Fixpoint mapM {A B} (f : A -> result B) (l : list A) : result (list B) :=
  match l with
  | [] => Ok []
  | x :: l' =>
      bind_result (f x) (fun y =>
      bind_result (mapM f l') (fun ys => Ok (y :: ys)))
  end.

(** [str.lower], on ASCII letters. *)
Definition lower_ascii (c : ascii) : ascii :=
  let n := nat_of_ascii c in
  if (Nat.leb 65 n && Nat.leb n 90)%bool then ascii_of_nat (n + 32) else c.

Fixpoint lower (s : string) : string :=
  match s with
  | EmptyString => EmptyString
  | String c s' => String (lower_ascii c) (lower s')
  end.

(** [a % b] on Python integers: the sign of the divisor, as [Z.modulo];
    a zero divisor raises. *)
Definition py_mod (a b : Z) : result Z :=
  if b =? 0 then Raise ZeroDivisionError else Ok (a mod b).

End Py.

Declare Scope py_scope.
Delimit Scope py_scope with py.
Notation "x <- m ;; k" := (Py.bind m (fun x => k))
  (at level 100, m at next level, right associativity) : py_scope.
Notation "m ;;; k" := (Py.bind m (fun _ => k))
  (at level 100, right associativity) : py_scope.

(** ** NumPy: indexing, arithmetic on index arrays, [np.random.randint] *)

Module Np.
Import Py.
Local Open Scope py_scope.

(** An index into an axis of length [len]: [0 .. len-1] as it is,
    [-len .. -1] counted from the end, anything else an [IndexError]. *)
Definition index (len i : Z) : result nat :=
  if (0 <=? i) && (i <? len) then Ok (Z.to_nat i)
  else if (- len <=? i) && (i <? 0) then Ok (Z.to_nat (len + i))
  else Raise IndexError.

(** [a[i]] *)
Definition getitem {A} (a : list A) (i : Z) : result A :=
  bind_result (index (Z.of_nat (length a)) i) (fun k =>
  match a !! k with
  | Some x => Ok x
  | None => Raise IndexError
  end).

(** [a[i] = x]. The value is the row as NumPy stores it, that is after
    broadcasting to the shape of a slot. *)
Definition setitem {A} (a : list A) (i : Z) (x : A) : result (list A) :=
  bind_result (index (Z.of_nat (length a)) i) (fun k => Ok (<[k := x]> a)).

(** [a[inds]] for an integer array [inds]: a new array (a copy). *)
Definition take {A} (a : list A) (inds : list Z) : result (list A) :=
  mapM (getitem a) inds.

(** [a[inds, 0, :]] *)
Definition take_env0 {A} (a : list (list A)) (inds : list Z) : result (list A) :=
  mapM (fun i => bind_result (getitem a i) (fun row => getitem row 0)) inds.

(** [arr + k] and [arr % c] on integer arrays. An integer array modulo
    zero is zero (with a warning), not an exception. The entries are
    64-bit in NumPy; the indices computed here stay below twice the number
    of allocated slots, far from the wrap-around, so they are taken in [Z]. *)
Definition add_scalar (arr : list Z) (k : Z) : list Z := map (fun x => x + k) arr.
Definition mod_scalar (arr : list Z) (c : Z) : list Z :=
  map (fun x => if c =? 0 then 0 else x mod c) arr.

(** The state of the global [np.random] generator: the raw integers it
    will hand out, in order. *)
Definition RandomState : Type := nat -> Z.

(** [np.random.randint(low, high, size=size)]: [size] integers of the
    half-open range [[low, high)]. For size 0 the empty array comes back
    before anything is checked; otherwise an empty range is refused, then
    a negative size. Every array over the range is the result for some
    generator state ([randint_any] below). The function gives the result
    and the generator state left behind. *)
Definition randint (low high size : Z) (g : RandomState)
  : result (list Z) * RandomState :=
  if size =? 0 then (Ok [], g)
  else if high <=? low then (Raise (ValueError "low >= high"), g)
  else if size <? 0 then (Raise (ValueError "negative dimensions are not allowed"), g)
  else (Ok (map (fun k => low + g k mod (high - low)) (seq 0 (Z.to_nat size))),
        fun k => g (k + Z.to_nat size)%nat).

End Np.

(** ** [anvil.common.type_aliases]: what [sample] takes and returns *)

Module TypeAliases.
Import Py.

(** Modelled from its uses in [ReplayBuffer.sample]: the enum is declared
    in anvil/common/type_aliases.py, which is not among the sources.
    [sample] builds a member from a lower-cased string, its default is the
    string numpy, and it compares with the member [TORCH]. *)
Inductive TrajectoryType : Type := NUMPY | TORCH.

(** [TrajectoryType(value)]: the member with that value, or [ValueError]. *)
Definition TrajectoryType_of_value (value : string) : result TrajectoryType :=
  if String.eqb value "numpy" then Ok NUMPY
  else if String.eqb value "torch" then Ok TORCH
  else Raise (ValueError "not a valid TrajectoryType").

Definition is_torch (t : TrajectoryType) : bool :=
  match t with TORCH => true | NUMPY => false end.

(** The [dtype] argument: [Union[str, TrajectoryType]]. *)
Inductive dtype_arg : Type :=
| dtype_str (s : string)
| dtype_member (t : TrajectoryType).

(** A batch array: a NumPy array, or the torch tensor [T.tensor(a).to(device)]
    made from it. Both hold a copy of the data, row by row. *)
Inductive Array (A : Type) : Type :=
| ndarray (data : list A)
| tensor (device : string) (data : list A).
Arguments ndarray {A} data.
Arguments tensor {A} device data.

Definition data {A} (a : Array A) : list A :=
  match a with ndarray d => d | tensor _ d => d end.

(** Modelled from the spec: the structured batch [{observations, actions,
    rewards, next_observations, dones}], each an array aligned by the same
    sampled indices (the class is declared in
    anvil/common/type_aliases.py, which is not among the sources). *)
Record Trajectories (Obs Act Rew Done : Type) : Type := mkTrajectories {
  observations : Array Obs;
  actions : Array Act;
  rewards : Array (list Rew);
  next_observations : Array Obs;
  dones : Array (list Done)
}.
Arguments mkTrajectories {Obs Act Rew Done}.
Arguments observations {Obs Act Rew Done}.
Arguments actions {Obs Act Rew Done}.
Arguments rewards {Obs Act Rew Done}.
Arguments next_observations {Obs Act Rew Done}.
Arguments dones {Obs Act Rew Done}.

End TypeAliases.

(** ** [anvil.buffers.replay_buffer.ReplayBuffer] *)

Module ReplayBuffer.
Import Py TypeAliases.
Local Open Scope py_scope.

Section Buffer.
(** What one environment contributes to a slot: an observation, an
    action, a reward, a done flag. A slot of an array is a row of these,
    one per environment (axis 1 of the NumPy array). *)
Context {Obs Act Rew Done : Type}.

(** The attributes of a buffer object that [add_trajectory] and [sample]
    read or assign. *)
Record t : Type := mk {
  buffer_size : Z;
  pos : Z;
  full : bool;
  observations : list (list Obs);
  actions : list (list Act);
  rewards : list (list Rew);
  dones : list (list Done);
  device : string
}.

Definition with_pos (v : Z) (b : t) : t :=
  mk (buffer_size b) v (full b) (observations b) (actions b) (rewards b)
     (dones b) (device b).
Definition with_full (v : bool) (b : t) : t :=
  mk (buffer_size b) (pos b) v (observations b) (actions b) (rewards b)
     (dones b) (device b).
Definition with_observations (v : list (list Obs)) (b : t) : t :=
  mk (buffer_size b) (pos b) (full b) v (actions b) (rewards b)
     (dones b) (device b).
Definition with_actions (v : list (list Act)) (b : t) : t :=
  mk (buffer_size b) (pos b) (full b) (observations b) v (rewards b)
     (dones b) (device b).
Definition with_rewards (v : list (list Rew)) (b : t) : t :=
  mk (buffer_size b) (pos b) (full b) (observations b) (actions b) v
     (dones b) (device b).
Definition with_dones (v : list (list Done)) (b : t) : t :=
  mk (buffer_size b) (pos b) (full b) (observations b) (actions b)
     (rewards b) v (device b).

(** What a method of the buffer can reach: the object itself and the
    global [np.random] generator. *)
Record Heap : Type := mkHeap {
  self : t;
  np_random : Np.RandomState
}.

Definition getattr {A} (f : t -> A) : M Heap A := gets (fun h => f (self h)).
Definition setattr (upd : t -> t) : M Heap unit :=
  modify (fun h => mkHeap (upd (self h)) (np_random h)).

(** [np.random.randint(low, high, size=size)] on the global generator. *)
Definition np_random_randint (low high size : Z) : M Heap (list Z) :=
  fun h => let (r, g) := Np.randint low high size (np_random h) in
           (r, mkHeap (self h) g).

(** Modelled from the spec: [BaseBuffer.__init__] (anvil/buffers/base_buffer.py
    is not among the sources) allocates the arrays once at the fixed
    capacity, with the write position at 0 and the [full] flag false.
    [zero_*] is the content of a slot nobody wrote, one value per
    environment. *)
Definition init (buffer_size : Z) (n_envs : nat)
    (zero_obs : Obs) (zero_act : Act) (zero_rew : Rew) (zero_done : Done)
    (device : string) : t :=
  let n := Z.to_nat buffer_size in
  mk buffer_size 0 false
     (replicate n (replicate n_envs zero_obs))
     (replicate n (replicate n_envs zero_act))
     (replicate n (replicate n_envs zero_rew))
     (replicate n (replicate n_envs zero_done))
     device.

(** [ReplayBuffer.add_trajectory], statement by statement. *)
Definition add_trajectory (observation : list Obs) (action : list Act)
    (reward : list Rew) (next_observation : list Obs) (done : list Done)
  : M Heap unit :=
  (* self.observations[self.pos] = observation *)
  a <- getattr observations ;; i <- getattr pos ;;
  a' <- lift (Np.setitem a i observation) ;;
  setattr (with_observations a') ;;;
  (* self.observations[(self.pos + 1) % self.buffer_size] = next_observation *)
  a <- getattr observations ;; i <- getattr pos ;; c <- getattr buffer_size ;;
  j <- lift (py_mod (i + 1) c) ;;
  a' <- lift (Np.setitem a j next_observation) ;;
  setattr (with_observations a') ;;;
  (* self.actions[self.pos] = action *)
  a <- getattr actions ;; i <- getattr pos ;;
  a' <- lift (Np.setitem a i action) ;;
  setattr (with_actions a') ;;;
  (* self.rewards[self.pos] = reward *)
  a <- getattr rewards ;; i <- getattr pos ;;
  a' <- lift (Np.setitem a i reward) ;;
  setattr (with_rewards a') ;;;
  (* self.dones[self.pos] = done *)
  a <- getattr dones ;; i <- getattr pos ;;
  a' <- lift (Np.setitem a i done) ;;
  setattr (with_dones a') ;;;
  (* self.pos += 1 *)
  i <- getattr pos ;;
  setattr (with_pos (i + 1)) ;;;
  (* if self.pos == self.buffer_size: self.full = True; self.pos = 0 *)
  i <- getattr pos ;; c <- getattr buffer_size ;;
  if i =? c then
    setattr (with_full true) ;;;
    setattr (with_pos 0)
  else ret tt.

(** Lines 63-64 of [sample]: a string is lower-cased and turned into a
    member of [TrajectoryType]. *)
Definition resolve_dtype (dtype : dtype_arg) : M Heap TrajectoryType :=
  match dtype with
  | dtype_str s => lift (TrajectoryType_of_value (lower s))
  | dtype_member m => ret m
  end.

(** Lines 65-70 of [sample]: the array [batch_inds]. *)
Definition draw_batch_inds (batch_size : Z) : M Heap (list Z) :=
  is_full <- getattr full ;;
  if is_full then
    c <- getattr buffer_size ;;
    r <- np_random_randint 1 c batch_size ;;
    p <- getattr pos ;; c <- getattr buffer_size ;;
    ret (Np.mod_scalar (Np.add_scalar r p) c)
  else
    p <- getattr pos ;;
    np_random_randint 0 p batch_size.

(** [T.tensor(a).to(self.device)] when [dtype == TrajectoryType.TORCH]. *)
Definition as_dtype {A} (dtype : TrajectoryType) (dev : string) (a : list A)
  : Array A :=
  if is_torch dtype then tensor dev a else ndarray a.

(** Lines 72-92 of [sample]: the five arrays read at [batch_inds], the
    conversion to tensors, and the batch. *)
Definition gather (batch_inds : list Z) (dtype : TrajectoryType)
  : M Heap (Trajectories Obs Act Rew Done) :=
  a <- getattr observations ;;
  observations_ <- lift (Np.take_env0 a batch_inds) ;;
  a <- getattr actions ;;
  actions_ <- lift (Np.take_env0 a batch_inds) ;;
  a <- getattr rewards ;;
  rewards_ <- lift (Np.take a batch_inds) ;;
  a <- getattr observations ;; c <- getattr buffer_size ;;
  next_observations_ <-
    lift (Np.take_env0 a (Np.mod_scalar (Np.add_scalar batch_inds 1) c)) ;;
  a <- getattr dones ;;
  dones_ <- lift (Np.take a batch_inds) ;;
  dev <- getattr device ;;
  ret (mkTrajectories
         (as_dtype dtype dev observations_)
         (as_dtype dtype dev actions_)
         (as_dtype dtype dev rewards_)
         (as_dtype dtype dev next_observations_)
         (as_dtype dtype dev dones_)).

(** [ReplayBuffer.sample] *)
Definition sample (batch_size : Z) (dtype : dtype_arg)
  : M Heap (Trajectories Obs Act Rew Done) :=
  dtype <- resolve_dtype dtype ;;
  batch_inds <- draw_batch_inds batch_size ;;
  gather batch_inds dtype.

(** [sample(batch_size)]: [dtype] left at its default. *)
Definition sample_default (batch_size : Z)
  : M Heap (Trajectories Obs Act Rew Done) :=
  sample batch_size (dtype_str "numpy").

(** One transition, as the arguments of [add_trajectory]. *)
Record Transition : Type := mkTransition {
  tr_observation : list Obs;
  tr_action : list Act;
  tr_reward : list Rew;
  tr_next_observation : list Obs;
  tr_done : list Done
}.

Definition add (tr : Transition) : M Heap unit :=
  add_trajectory (tr_observation tr) (tr_action tr) (tr_reward tr)
                 (tr_next_observation tr) (tr_done tr).

(** Calls of [add_trajectory] one after the other. *)
Fixpoint add_all (trs : list Transition) : M Heap unit :=
  match trs with
  | [] => ret tt
  | tr :: trs' => add tr ;;; add_all trs'
  end.

(** The buffer states of the data model: the write position is one of
    [0 .. buffer_size - 1] and each array has [buffer_size] slots. *)
Definition well_formed (b : t) : Prop :=
  0 <= pos b < buffer_size b /\
  Z.of_nat (length (observations b)) = buffer_size b /\
  Z.of_nat (length (actions b)) = buffer_size b /\
  Z.of_nat (length (rewards b)) = buffer_size b /\
  Z.of_nat (length (dones b)) = buffer_size b.

(** There is at least one environment: every slot of the observation
    and action arrays has an entry 0 on axis 1. *)
Definition has_env0 (b : t) : Prop :=
  Forall (fun row => row <> []) (observations b) /\
  Forall (fun row => row <> []) (actions b).

(** [self.observations[j, 0, :]] for one index [j]. *)
Definition stored_observation (b : t) (j : Z) : result Obs :=
  bind_result (Np.getitem (observations b) j) (fun row => Np.getitem row 0).

(** The contract of [add] in the words of the specification: write
    observation, action, reward and done at [pos], then next_observation
    at [(pos + 1) mod buffer_size], advance [pos], and when the capacity is
    reached set [full] and wrap [pos] to 0. *)
Definition add_spec (b : t) (observation : list Obs) (action : list Act)
    (reward : list Rew) (next_observation : list Obs) (done : list Done) : t :=
  let p := pos b in
  let c := buffer_size b in
  mk c
     (if p + 1 =? c then 0 else p + 1)
     (if p + 1 =? c then true else full b)
     (<[Z.to_nat ((p + 1) mod c) := next_observation]>
        (<[Z.to_nat p := observation]> (observations b)))
     (<[Z.to_nat p := action]> (actions b))
     (<[Z.to_nat p := reward]> (rewards b))
     (<[Z.to_nat p := done]> (dones b))
     (device b).

(** A computation that leaves the buffer object as it found it, whatever
    it does to the random generator and whether or not it raises. *)
Definition read_only {A} (m : M Heap A) : Prop :=
  forall h, self (snd (m h)) = self h.

End Buffer.

Arguments t : clear implicits.
Arguments Heap : clear implicits.
Arguments Transition : clear implicits.

End ReplayBuffer.

(** ** [signal_processing]: the TD-zero target *)

Module SignalProcessing.
Import Py.

Section TD.
(** The numbers of a batch, with exact arithmetic: any ring. Rounding and
    the non-finite values of machine floats are outside this model. *)
Context {R : Type} (rO rI : R) (radd rmul rsub : R -> R -> R).

(** Modelled from the spec: [target = reward + gamma * (1 - done) * next_Q]
    for one element of the batch. [TD_zero] itself
    (signal_processing/sample_estimators.py, return_estimators.py) is not
    among the sources; only its callers are. *)
Definition TD_zero_element (gamma reward next_value done : R) : R :=
  radd reward (rmul (rmul gamma (rsub rI done)) next_value).

Fixpoint TD_zero_rows (gamma : R) (rewards next_values dones : list R)
  : option (list R) :=
  match rewards, next_values, dones with
  | [], [], [] => Some []
  | r :: rs, v :: vs, d :: ds =>
      match TD_zero_rows gamma rs vs ds with
      | Some l => Some (TD_zero_element gamma r v d :: l)
      | None => None
      end
  | _, _, _ => None
  end.

(** Modelled from the spec: [TD_zero(rewards, next_values, dones, gamma=1)],
    computed elementwise over the batch; [gamma = None] is the call that
    leaves [gamma] at its default 1. Arrays of different lengths do not
    line up element by element and are refused. *)
Definition TD_zero (rewards next_values dones : list R) (gamma : option R)
  : result (list R) :=
  let g := match gamma with Some g => g | None => rI end in
  match TD_zero_rows g rewards next_values dones with
  | Some l => Ok l
  | None => Raise (ValueError "operands could not be broadcast together")
  end.

End TD.

End SignalProcessing.

(** ** [pearll.updaters.environment]: [BaseDeepUpdater], [DeepRegression] *)

Module Updater.
Import Py.
Local Open Scope py_scope.

Section Torch.
(** Parameter tensors (by identity), batches and loss tensors, the model's
    forward pass, the loss function and [loss.detach().item()]. *)
Context {Param Model Tensor : Type}.
Context (model_parameters : Model -> list Param)
        (forward : Model -> Tensor -> Tensor -> Tensor)
        (item : Tensor -> float).

(** What torch is asked to do, in order, and on which parameters. *)
Inductive event : Type :=
| ZeroGrad (params : list Param)
| Backward (loss : Tensor)
| ClipGradNorm (params : list Param) (max_norm : float)
| Step (params : list Param) (lr : float).

(** The objects the updater works on. An iterator (the generator that
    [model.parameters()] returns, typed [Iterator[T.nn.Parameter]] in
    [run_optimizer]) is an object of its own: it is known by a handle
    and holds the items it has not yielded yet. Whoever iterates over it
    consumes them for everybody who holds the handle. *)
Record World : Type := mkWorld {
  iterators : list (list Param);
  trace : list event
}.

Definition iterator : Type := nat.

Record Optimizer : Type := mkOptimizer {
  param_groups : list Param;
  lr : float
}.

Record UpdaterLog : Type := mkUpdaterLog { loss : float }.

(** The attributes of an updater object. [loss_class] is the loss module,
    called on predictions and targets. *)
Record DeepRegression : Type := mkDeepRegression {
  loss_class : Tensor -> Tensor -> Tensor;
  max_grad : float
}.

Definition emit (e : event) : M World unit :=
  modify (fun w => mkWorld (iterators w) (trace w ++ [e])).

(** [model.parameters()]: a fresh iterator over the model's parameters. *)
Definition parameters (model : Model) : M World iterator :=
  fun w => (Ok (length (iterators w)),
            mkWorld (iterators w ++ [model_parameters model]) (trace w)).

(** [list(it)], or a [for] loop over [it]: the items not yet yielded;
    none is left afterwards. *)
Definition drain (it : iterator) : M World (list Param) :=
  fun w => (Ok (default [] (iterators w !! it)),
            mkWorld (<[it := []]> (iterators w)) (trace w)).

(** [optimizer_class(params, lr=learning_rate)]: the constructor of
    [T.optim.Optimizer] collects [list(params)] and refuses an empty
    list. *)
Definition optimizer_class (params : iterator) (learning_rate : float)
  : M World Optimizer :=
  groups <- drain params ;;
  match groups with
  | [] => raise (ValueError "optimizer got an empty parameter list")
  | _ => ret (mkOptimizer groups learning_rate)
  end.

(** [T.nn.utils.clip_grad_norm_(parameters, max_norm)] iterates over
    [parameters] and rescales the gradients of the parameters it finds
    there. *)
Definition clip_grad_norm_ (parameters : iterator) (max_norm : float)
  : M World unit :=
  ps <- drain parameters ;;
  emit (ClipGradNorm ps max_norm).

(** [BaseDeepUpdater.run_optimizer] *)
Definition run_optimizer (self : DeepRegression) (optimizer : Optimizer)
    (loss : Tensor) (model_parameters : iterator) : M World unit :=
  (* optimizer.zero_grad() *)
  emit (ZeroGrad (param_groups optimizer)) ;;;
  (* loss.backward() *)
  emit (Backward loss) ;;;
  (* if self.max_grad > 0: T.nn.utils.clip_grad_norm_(model_parameters, self.max_grad) *)
  (if PrimFloat.ltb 0%float (max_grad self)
   then clip_grad_norm_ model_parameters (max_grad self)
   else ret tt) ;;;
  (* optimizer.step() *)
  emit (Step (param_groups optimizer) (lr optimizer)).

(** [DeepRegression.__call__] *)
Definition __call__ (self : DeepRegression) (model : Model)
    (observations actions targets : Tensor) (learning_rate : float)
  : M World UpdaterLog :=
  (* params = model.parameters() *)
  params <- parameters model ;;
  (* optimizer = self.optimizer_class(params, lr=learning_rate) *)
  optimizer <- optimizer_class params learning_rate ;;
  (* loss = self.loss_class(model(observations, actions), targets) *)
  let loss := loss_class self (forward model observations actions) targets in
  (* self.run_optimizer(optimizer, loss, params) *)
  run_optimizer self optimizer loss params ;;;
  (* return UpdaterLog(loss=loss.detach().item()) *)
  ret (mkUpdaterLog (item loss)).

End Torch.

Arguments event : clear implicits.
Arguments World : clear implicits.
Arguments Optimizer : clear implicits.
Arguments DeepRegression : clear implicits.

End Updater.

(** ** [anvil.agents.dqn]: [DQN._fit] *)

Module DQN.
Import Py TypeAliases.
Local Open Scope py_scope.

Section Agent.
Context {Obs Act R Params : Type} (rO rI : R) (radd rmul rsub : R -> R -> R).

(** The networks and the optimisation step, which the sources leave to
    torch: the largest Q-value a critic with the given parameters assigns at
    an observation ([critic(obs).max(dim=-1)]), the critic parameters and
    the loss after one regression step on a batch, and [np.mean]. *)
Context (max_q : Params -> Obs -> R)
        (regression_step : Params -> list Obs -> list R -> list Act -> Params * float)
        (np_mean : list float -> float).

(** Modelled from the spec: the model with a target critic
    ([ActorCriticWithCriticTarget], anvil/models/actor_critics.py, not
    among the sources) holds the online critic and the target critic, a
    parameter-for-parameter copy of it. *)
Record ActorCriticWithCriticTarget : Type := mkModel {
  critic : Params;
  target_critic : Params
}.

(** Modelled from the spec: [assign_targets] is the hard synchronisation,
    after which the target critic's parameter values equal the online
    critic's exactly; the online critic is the source of the copy. *)
Definition assign_targets : M ActorCriticWithCriticTarget unit :=
  modify (fun m => mkModel (critic m) (critic m)).

Record UpdaterLog : Type := mkUpdaterLog { loss : float }.
Record Log : Type := mkLog { critic_loss : float }.

(** Modelled from the spec: the critic updater ([QRegression],
    anvil/updaters/critics.py, not among the sources) computes the online
    critic's predictions, a loss against the targets, runs one
    optimisation step on the online critic and reports the scalar loss;
    gradient descent never touches the target critic. *)
Definition updater (observations : list Obs) (targets : list R)
    (actions_index : list Act) : M ActorCriticWithCriticTarget UpdaterLog :=
  fun m =>
    let (critic', l) := regression_step (critic m) observations targets actions_index in
    (Ok (mkUpdaterLog l), mkModel critic' (target_critic m)).

(** The attributes of the agent that [_fit] reaches. *)
Record t : Type := mk {
  buffer : ReplayBuffer.Heap Obs Act R R;
  model : ActorCriticWithCriticTarget
}.

Definition on_buffer {A} (m : M (ReplayBuffer.Heap Obs Act R R) A) : M t A :=
  zoom buffer (fun b a => mk b (model a)) m.
Definition on_model {A} (m : M ActorCriticWithCriticTarget A) : M t A :=
  zoom model (fun m a => mk (buffer a) m) m.

(** The body of the loop of [_fit], lines 103-120; its value is
    [updater_log.loss]. Arrays are taken along the batch axis: the rows of
    rewards and dones (one entry per environment) are laid end to end. *)
Definition critic_epoch (batch_size : Z) : M t float :=
  (* trajectories = self.buffer.sample(batch_size=batch_size) *)
  trajectories <- on_buffer (ReplayBuffer.sample_default batch_size) ;;
  (* next_q_values = self.model.target_critic(trajectories.next_observations); max *)
  m <- gets model ;;
  let next_q_values :=
    map (max_q (target_critic m)) (data (next_observations trajectories)) in
  (* target_q_values = TD_zero(trajectories.rewards, next_q_values, trajectories.dones) *)
  target_q_values <-
    lift (SignalProcessing.TD_zero rI radd rmul rsub
            (concat (data (rewards trajectories))) next_q_values
            (concat (data (dones trajectories))) None) ;;
  (* updater_log = self.updater(self.model, observations, target_q_values, actions_index=actions) *)
  updater_log <-
    on_model (updater (data (observations trajectories)) target_q_values
                      (data (actions trajectories))) ;;
  ret (loss updater_log).

(** [for i in range(critic_epochs): ...; critic_losses[i] = updater_log.loss] *)
Fixpoint critic_epochs_loop (batch_size : Z) (n : nat) : M t (list float) :=
  match n with
  | O => ret []
  | S n' =>
      l <- critic_epoch batch_size ;;
      ls <- critic_epochs_loop batch_size n' ;;
      ret (l :: ls)
  end.

(** [DQN._fit]. [np.zeros(shape=(critic_epochs))] refuses a negative
    length. *)
Definition _fit (batch_size : Z) (actor_epochs critic_epochs : Z) : M t Log :=
  (if critic_epochs <? 0
   then raise (ValueError "negative dimensions are not allowed")
   else ret tt) ;;;
  critic_losses <- critic_epochs_loop batch_size (Z.to_nat critic_epochs) ;;
  (* self.model.assign_targets() *)
  on_model assign_targets ;;;
  (* return Log(critic_loss=np.mean(critic_losses)) *)
  ret (mkLog (np_mean critic_losses)).

End Agent.

Arguments ActorCriticWithCriticTarget : clear implicits.
Arguments t : clear implicits.

End DQN.

(** ** A scenario: capacity 3, one environment, rewards 10, 20, 30 *)

Module Scenario.
Import Py TypeAliases ReplayBuffer.

(** A generator state: the raw integers 0, 1, 2, ... *)
Definition gen : Np.RandomState := fun k => Z.of_nat k.

Definition fresh : ReplayBuffer.t Z Z Z Z := init 3 1 0 0 0 0 "cpu".

(** The [k]-th transition of an episode: observation [k], action 0,
    reward [10 * (k + 1)], next observation [k + 1], not done. *)
Definition transition (k : Z) : Transition Z Z Z Z :=
  mkTransition [k] [0] [10 * (k + 1)] [k + 1] [0].

Definition two : list (Transition Z Z Z Z) := [transition 0; transition 1].
Definition three : list (Transition Z Z Z Z) :=
  [transition 0; transition 1; transition 2].

(** The buffer after two and after three insertions. *)
Definition partly_filled : ReplayBuffer.t Z Z Z Z :=
  Eval vm_compute in self (snd (add_all two (mkHeap fresh gen))).
Definition filled : ReplayBuffer.t Z Z Z Z :=
  Eval vm_compute in self (snd (add_all three (mkHeap fresh gen))).

End Scenario.

(** ** A scenario for the updater: two parameters, clipping at 0.5 *)

Module UpdaterScenario.
Import Py Updater.

(** A model with the parameters weight and bias; tensors are scalars, the
    forward pass adds observation and action, the loss is the squared
    error. *)
Definition model : list string := ["weight"%string; "bias"%string].
Definition model_parameters (m : list string) : list string := m.
Definition forward (m : list string) (observations actions : float) : float :=
  (observations + actions)%float.
Definition squared_error (prediction target : float) : float :=
  ((prediction - target) * (prediction - target))%float.
Definition item (x : float) : float := x.

(** An updater configured with [max_grad = 0.5], and one left at the
    default [max_grad = 0]. *)
Definition clipping : DeepRegression float := mkDeepRegression squared_error 0.5%float.
Definition not_clipping : DeepRegression float := mkDeepRegression squared_error 0%float.

(** The default [learning_rate = 0.001], as the binary64 number it is. *)
Definition learning_rate : float := 0x1.0624dd2f1a9fcp-10%float.

(** No iterator exists yet and torch was not asked anything. *)
Definition start : World string float := mkWorld [] [].

End UpdaterScenario.

(** ** A scenario for the agent: the full buffer, a stale target critic *)

Module AgentScenario.
Import Py DQN.

(** A critic with one integer parameter [p] whose largest Q-value at the
    observation [o] is [p * o]; a regression step adds 1 to the parameter
    and reports the loss 0.5. *)
Definition max_q (p o : Z) : Z := p * o.
Definition regression_step (p : Z) (observations targets actions : list Z)
  : Z * float := (p + 1, 0.5%float).
Definition np_mean (l : list float) : float :=
  (fold_right PrimFloat.add 0 l
   / PrimFloat.of_uint63 (Uint63.of_Z (Z.of_nat (length l))))%float.

(** The online critic is at 2, the target critic still at 1. *)
Definition agent : DQN.t Z Z Z Z :=
  DQN.mk (ReplayBuffer.mkHeap Scenario.filled Scenario.gen) (mkModel 2 1).

Definition fit (batch_size actor_epochs critic_epochs : Z) :=
  _fit 1 Z.add Z.mul Z.sub max_q regression_step np_mean
       batch_size actor_epochs critic_epochs.

End AgentScenario.

(** ** What a batch entry has to do with an inserted transition *)

Module Replay.
Import Py TypeAliases ReplayBuffer.

Section Replay.
Context {Obs Act Rew Done : Type}.

(** The entry of environment 0 in a row. *)
Definition env0 {A} (row : list A) : option A := row !! 0%nat.

(** Place [k] of [batch] replays the transition that was inserted as number
    [i] of [trs]: observation, action, reward and done flag are its own, and
    the next observation is the observation of the transition inserted after
    it or, when it is the last one inserted, its own next observation. *)
Definition replays (trs : list (Transition Obs Act Rew Done))
    (batch : Trajectories Obs Act Rew Done) (k : nat) (i : Z) : Prop :=
  0 <= i /\
  exists tr,
    trs !! Z.to_nat i = Some tr /\
    (exists o, data (TypeAliases.observations batch) !! k = Some o /\
               env0 (tr_observation tr) = Some o) /\
    (exists a, data (TypeAliases.actions batch) !! k = Some a /\
               env0 (tr_action tr) = Some a) /\
    data (TypeAliases.rewards batch) !! k = Some (tr_reward tr) /\
    data (TypeAliases.dones batch) !! k = Some (tr_done tr) /\
    (exists o', data (next_observations batch) !! k = Some o' /\
                env0 (match trs !! S (Z.to_nat i) with
                      | Some tr' => tr_observation tr'
                      | None => tr_next_observation tr
                      end) = Some o').

(** The buffer [b] holds the transitions [trs], inserted in this order
    since the buffer was empty: position and [full] flag count them, each
    of the last [buffer_size - 1] of them sits in the slot of its number
    modulo the capacity, and the observation slot at the write position
    holds the next observation of the last one. *)
Definition holds (b : ReplayBuffer.t Obs Act Rew Done)
    (trs : list (Transition Obs Act Rew Done)) : Prop :=
  let n := Z.of_nat (length trs) in
  let c := buffer_size b in
  well_formed b /\
  pos b = n mod c /\
  full b = (c <=? n) /\
  (forall (t : nat) tr,
      trs !! t = Some tr ->
      n - c < Z.of_nat t ->
      let j := Z.to_nat (Z.of_nat t mod c) in
      actions b !! j = Some (tr_action tr) /\
      rewards b !! j = Some (tr_reward tr) /\
      dones b !! j = Some (tr_done tr) /\
      observations b !! j = Some (tr_observation tr)) /\
  (forall tr,
      last trs = Some tr ->
      observations b !! Z.to_nat (n mod c) = Some (tr_next_observation tr)).

End Replay.

End Replay.

(** ** More scenarios: a buffer of capacity 1 *)

Module EdgeScenario.
Import Py TypeAliases ReplayBuffer.

Definition single : ReplayBuffer.t Z Z Z Z := init 1 1 0 0 0 0 "cpu".

(** A buffer of capacity 0: its arrays have no slot. *)
Definition no_slot : ReplayBuffer.t Z Z Z Z := init 0 1 0 0 0 0 "cpu".

(** Four transitions, one more than the capacity of [Scenario.fresh]. *)
Definition four : list (Transition Z Z Z Z) :=
  [Scenario.transition 0; Scenario.transition 1; Scenario.transition 2;
   Scenario.transition 3].

(** The updater's world when an iterator over weight and bias exists and
    has not been used, and an optimizer over the two. *)
Definition fresh_iterator : Updater.World string float :=
  Updater.mkWorld [["weight"%string; "bias"%string]] [].
Definition optimizer : Updater.Optimizer string :=
  Updater.mkOptimizer ["weight"%string; "bias"%string]
                      UpdaterScenario.learning_rate.

(** A model without parameters. *)
Definition bare_model : list string := [].

(** An agent whose buffer nothing was written to. *)
Definition idle_agent : DQN.t Z Z Z Z :=
  DQN.mk (ReplayBuffer.mkHeap Scenario.fresh Scenario.gen) (DQN.mkModel 2 1).

End EdgeScenario.

(* ================================================================== *)
(** * Part II: properties *)
(* ================================================================== *)

(** ** NumPy helpers *)

Section NpFacts.
Import Py.

Lemma index_in_range (len i : Z) :
  0 <= i < len -> Np.index len i = Ok (Z.to_nat i).
Proof.
  intros [H0 H1]. unfold Np.index.
  destruct (Z.leb_spec 0 i); [|lia].
  destruct (Z.ltb_spec i len); [|lia].
  reflexivity.
Qed.

Lemma setitem_in_range {A} (a : list A) (i : Z) (x : A) :
  0 <= i < Z.of_nat (length a) ->
  Np.setitem a i x = Ok (<[Z.to_nat i := x]> a).
Proof.
  intros H. unfold Np.setitem. rewrite index_in_range by exact H. reflexivity.
Qed.

Lemma getitem_in_range {A} (a : list A) (i : Z) :
  0 <= i < Z.of_nat (length a) ->
  exists x, a !! Z.to_nat i = Some x /\ Np.getitem a i = Ok x.
Proof.
  intros H. unfold Np.getitem. rewrite index_in_range by exact H. simpl.
  destruct (lookup_lt_is_Some_2 a (Z.to_nat i)) as [x Hx]; [lia|].
  exists x. rewrite Hx. split; reflexivity.
Qed.

Lemma mapM_ok {A B} (f : A -> result B) (l : list A) :
  Forall (fun x => exists y, f x = Ok y) l ->
  exists ys, mapM f l = Ok ys /\ length ys = length l.
Proof.
  induction 1 as [|x l [y Hy] _ [ys [IH Hlen]]]; simpl.
  - exists []. split; reflexivity.
  - rewrite Hy. simpl. rewrite IH. simpl. exists (y :: ys).
    split; [reflexivity | simpl; congruence].
Qed.

Lemma mapM_Forall2 {A B} (f : A -> result B) (l : list A) (ys : list B) :
  mapM f l = Ok ys -> Forall2 (fun x y => f x = Ok y) l ys.
Proof.
  revert ys. induction l as [|x l IH]; simpl; intros ys H.
  - injection H as <-. constructor.
  - destruct (f x) as [y|e] eqn:Hy; simpl in H; [|discriminate].
    destruct (mapM f l) as [ys'|e] eqn:Hl; simpl in H; [|discriminate].
    injection H as <-. constructor; [exact Hy | apply IH; reflexivity].
Qed.

(** What [randint] returns lies in the range and has the length asked for. *)
Lemma randint_range (low high size : Z) (g g' : Np.RandomState) (l : list Z) :
  Np.randint low high size g = (Ok l, g') ->
  Forall (fun x => low <= x < high) l /\ length l = Z.to_nat size.
Proof.
  unfold Np.randint.
  destruct (Z.eqb_spec size 0) as [->|Hne].
  - intros H'. injection H' as <- _. split; [constructor | reflexivity].
  - destruct (Z.leb_spec high low); [discriminate|].
    destruct (Z.ltb_spec size 0); [discriminate|].
    intros H'. injection H' as <- _. split.
    + apply Forall_forall. intros x Hx.
      apply list_elem_of_In, in_map_iff in Hx. destruct Hx as [k [<- _]].
      pose proof (Z.mod_pos_bound (g k) (high - low)). lia.
    + rewrite length_map, length_seq. reflexivity.
Qed.

(** On a range that is not empty [randint] returns. *)
Lemma randint_returns (low high size : Z) (g : Np.RandomState) :
  0 <= size -> low < high ->
  exists l g', Np.randint low high size g = (Ok l, g').
Proof.
  intros Hs Hr. unfold Np.randint.
  destruct (Z.eqb_spec size 0); [eauto|].
  destruct (Z.leb_spec high low); [lia|].
  destruct (Z.ltb_spec size 0); [lia|]. eauto.
Qed.

(** On an empty range it raises as soon as one sample is asked for. *)
Lemma randint_empty_range (low high size : Z) (g : Np.RandomState) :
  1 <= size -> high <= low ->
  Np.randint low high size g = (Raise (ValueError "low >= high"), g).
Proof.
  intros Hs Hr. unfold Np.randint.
  destruct (Z.eqb_spec size 0); [lia|].
  destruct (Z.leb_spec high low); [reflexivity | lia].
Qed.

(** The generator is not biased by the model: every array over the range
    is drawn from some generator state. *)
Lemma randint_any (low high : Z) (l : list Z) :
  Forall (fun x => low <= x < high) l ->
  exists g, fst (Np.randint low high (Z.of_nat (length l)) g) = Ok l.
Proof.
  intros Hl. exists (fun k => nth k l low - low). unfold Np.randint.
  destruct (Z.eqb_spec (Z.of_nat (length l)) 0) as [E|E].
  - destruct l; [reflexivity | simpl in E; lia].
  - destruct (Z.leb_spec high low) as [Hle|Hlt].
    + destruct l as [|x l]; [simpl in E; lia|].
      apply Forall_cons in Hl. lia.
    + destruct (Z.ltb_spec (Z.of_nat (length l)) 0); [lia|].
      simpl. f_equal. rewrite Nat2Z.id.
      apply nth_ext with (d := low) (d' := low).
      * rewrite length_map, length_seq. reflexivity.
      * intros k Hk. rewrite length_map, length_seq in Hk.
        rewrite (nth_indep _ low (low + (nth 0 l low - low) mod (high - low)))
          by (rewrite length_map, length_seq; exact Hk).
        rewrite (map_nth (fun k => low + (nth k l low - low) mod (high - low))
                         (seq 0 (length l)) 0%nat k).
        rewrite seq_nth by exact Hk. simpl.
        assert (Hin : low <= nth k l low < high).
        { rewrite Forall_forall in Hl. apply Hl, list_elem_of_In, nth_In.
          exact Hk. }
        rewrite Z.mod_small by lia. lia.
Qed.

End NpFacts.

(** ** The replay buffer: insertion *)

Section BufferInsertion.
Import Py TypeAliases ReplayBuffer.
Context {Obs Act Rew Done : Type}.

(** On a well-formed buffer [add_trajectory] does not raise, leaves the
    random generator alone, and the buffer it leaves is the one the
    contract describes. *)
Lemma add_trajectory_run (b : ReplayBuffer.t Obs Act Rew Done) g o a r o' d :
  well_formed b ->
  add_trajectory o a r o' d (mkHeap b g)
  = (Ok tt, mkHeap (add_spec b o a r o' d) g).
Proof.
  intros (Hp & Ho & Ha & Hr & Hd).
  unfold add_trajectory, bind, getattr, setattr, gets, modify, lift, ret. simpl.
  rewrite setitem_in_range by lia. simpl.
  unfold py_mod. destruct (Z.eqb_spec (buffer_size b) 0) as [E|E]; [lia|]. simpl.
  rewrite setitem_in_range.
  2:{ rewrite length_insert.
      pose proof (Z.mod_pos_bound (pos b + 1) (buffer_size b)). lia. }
  simpl. rewrite !setitem_in_range by lia. simpl.
  unfold add_spec.
  destruct (Z.eqb_spec (pos b + 1) (buffer_size b)); reflexivity.
Qed.

(** The slots of the buffer the contract describes: the transition sits at
    the old [pos], its next observation in the following slot. With a
    capacity of 1 that is the same slot, and the next observation, written
    last, is what it holds. *)
Lemma add_spec_slots (b : ReplayBuffer.t Obs Act Rew Done) o a r o' d :
  well_formed b ->
  let b' := add_spec b o a r o' d in
  actions b' !! Z.to_nat (pos b) = Some a /\
  rewards b' !! Z.to_nat (pos b) = Some r /\
  dones b' !! Z.to_nat (pos b) = Some d /\
  observations b' !! Z.to_nat ((pos b + 1) mod buffer_size b) = Some o' /\
  (2 <= buffer_size b -> observations b' !! Z.to_nat (pos b) = Some o).
Proof.
  intros (Hp & Ho & Ha & Hr & Hd). unfold add_spec. simpl.
  pose proof (Z.mod_pos_bound (pos b + 1) (buffer_size b)) as Hm.
  repeat split; try (apply list_lookup_insert_eq; lia).
  - apply list_lookup_insert_eq. rewrite length_insert. lia.
  - intros Hc. rewrite list_lookup_insert_ne.
    + apply list_lookup_insert_eq. lia.
    + intros E. apply Z2Nat.inj in E; [|lia|lia].
      destruct (Z.eq_dec (pos b + 1) (buffer_size b)) as [E'|E'].
      * rewrite E', Z.mod_same in E by lia. lia.
      * rewrite Z.mod_small in E by lia. lia.
Qed.

Lemma add_spec_well_formed (b : ReplayBuffer.t Obs Act Rew Done) o a r o' d :
  well_formed b -> well_formed (add_spec b o a r o' d).
Proof.
  intros (Hp & Ho & Ha & Hr & Hd). unfold well_formed, add_spec. simpl.
  rewrite !length_insert.
  destruct (Z.eqb_spec (pos b + 1) (buffer_size b)); repeat split; lia.
Qed.

Lemma init_well_formed (c : Z) n zo za zr zd dev :
  1 <= c -> well_formed (init (Obs:=Obs) (Act:=Act) (Rew:=Rew) (Done:=Done)
                              c n zo za zr zd dev).
Proof.
  intros Hc. unfold well_formed, init. simpl.
  rewrite !length_replicate. repeat split; lia.
Qed.

(** Insertions that stay below the capacity: the position counts them and
    [full] keeps its value. *)
Lemma add_all_below (trs : list (Transition Obs Act Rew Done)) :
  forall (b : ReplayBuffer.t Obs Act Rew Done) g,
    well_formed b ->
    pos b + Z.of_nat (length trs) < buffer_size b ->
    exists b', add_all trs (mkHeap b g) = (Ok tt, mkHeap b' g) /\
               well_formed b' /\
               buffer_size b' = buffer_size b /\
               pos b' = pos b + Z.of_nat (length trs) /\
               full b' = full b.
Proof.
  induction trs as [|tr trs IH]; intros b g Hwf Hlt.
  - exists b. simpl. unfold ret. repeat split; try apply Hwf; lia.
  - simpl in Hlt. simpl. unfold bind, add.
    rewrite add_trajectory_run by exact Hwf.
    set (b1 := add_spec b _ _ _ _ _).
    assert (Hwf1 : well_formed b1) by (apply add_spec_well_formed; exact Hwf).
    assert (Hpos1 : pos b1 = pos b + 1).
    { subst b1. unfold add_spec. simpl.
      destruct (Z.eqb_spec (pos b + 1) (buffer_size b)); lia. }
    assert (Hfull1 : full b1 = full b).
    { subst b1. unfold add_spec. simpl.
      destruct (Z.eqb_spec (pos b + 1) (buffer_size b)); [lia | reflexivity]. }
    assert (Hsize1 : buffer_size b1 = buffer_size b) by reflexivity.
    destruct (IH b1 g Hwf1) as (b' & Hrun & Hwf' & Hsize & Hpos & Hfull); [lia|].
    exists b'. rewrite Hrun. repeat split; try apply Hwf'; try congruence.
    rewrite Hpos, Hpos1. simpl length. lia.
Qed.

(** Insertions that reach the capacity exactly: the buffer is full and the
    position is back at 0. *)
Lemma add_all_reaching_capacity (trs : list (Transition Obs Act Rew Done)) :
  forall (b : ReplayBuffer.t Obs Act Rew Done) g,
    well_formed b ->
    pos b + Z.of_nat (length trs) = buffer_size b ->
    exists b', add_all trs (mkHeap b g) = (Ok tt, mkHeap b' g) /\
               well_formed b' /\
               buffer_size b' = buffer_size b /\
               pos b' = 0 /\
               full b' = true.
Proof.
  induction trs as [|tr trs IH]; intros b g Hwf Heq.
  - destruct Hwf as (Hp & _). simpl in Heq. lia.
  - simpl in Heq. simpl. unfold bind, add.
    rewrite add_trajectory_run by exact Hwf.
    set (b1 := add_spec b _ _ _ _ _).
    assert (Hwf1 : well_formed b1) by (apply add_spec_well_formed; exact Hwf).
    destruct trs as [|tr' trs].
    + exists b1. simpl. unfold ret. subst b1. unfold add_spec in *. simpl in *.
      destruct (Z.eqb_spec (pos b + 1) (buffer_size b)); [|lia].
      repeat split; try apply Hwf1; reflexivity.
    + assert (Hpos1 : pos b1 = pos b + 1).
      { subst b1. unfold add_spec. simpl. simpl in Heq.
        destruct (Z.eqb_spec (pos b + 1) (buffer_size b)); lia. }
      destruct (IH b1 g Hwf1) as (b' & Hrun & Hwf' & Hsize & Hpos & Hfull).
      { rewrite Hpos1. change (buffer_size b1) with (buffer_size b).
        simpl length in *. lia. }
      exists b'. rewrite Hrun. repeat split; try apply Hwf'; try congruence.
      exact Hsize.
Qed.

End BufferInsertion.

(** ** The replay buffer: sampling *)

Section BufferSampling.
Import Py TypeAliases ReplayBuffer.
Context {Obs Act Rew Done : Type}.

(** [draw_batch_inds] in one piece: the draw, then the offset by [pos]
    when the buffer is full. The buffer object is not assigned to. *)
Lemma draw_batch_inds_run (b : ReplayBuffer.t Obs Act Rew Done) g n :
  draw_batch_inds n (mkHeap b g)
  = if full b then
      let (r, g') := Np.randint 1 (buffer_size b) n g in
      (match r with
       | Ok l => Ok (Np.mod_scalar (Np.add_scalar l (pos b)) (buffer_size b))
       | Raise e => Raise e
       end, mkHeap b g')
    else
      let (r, g') := Np.randint 0 (pos b) n g in (r, mkHeap b g').
Proof.
  unfold draw_batch_inds, bind, getattr, gets, np_random_randint, ret. simpl.
  destruct (full b); simpl.
  - destruct (Np.randint 1 (buffer_size b) n g) as [[l|e] g']; reflexivity.
  - destruct (Np.randint 0 (pos b) n g) as [[l|e] g']; reflexivity.
Qed.

Lemma draw_batch_inds_self (b : ReplayBuffer.t Obs Act Rew Done) g n :
  self (snd (draw_batch_inds n (mkHeap b g))) = b.
Proof.
  rewrite draw_batch_inds_run.
  destruct (full b);
    [destruct (Np.randint 1 (buffer_size b) n g) |
     destruct (Np.randint 0 (pos b) n g)]; reflexivity.
Qed.

Lemma full_draw_returns (b : ReplayBuffer.t Obs Act Rew Done) g n :
  full b = true -> 2 <= buffer_size b -> 0 <= n ->
  exists inds g',
    draw_batch_inds n (mkHeap b g) = (Ok inds, mkHeap b g') /\
    length inds = Z.to_nat n.
Proof.
  intros Hfull Hc Hn. rewrite draw_batch_inds_run, Hfull.
  destruct (randint_returns 1 (buffer_size b) n g Hn) as (l & g' & Hr); [lia|].
  rewrite Hr. eexists _, g'. split; [reflexivity|].
  apply randint_range in Hr. destruct Hr as [_ Hlen].
  unfold Np.mod_scalar, Np.add_scalar. rewrite !length_map. exact Hlen.
Qed.

Lemma unfilled_draw_returns (b : ReplayBuffer.t Obs Act Rew Done) g n :
  full b = false -> 1 <= pos b -> 0 <= n ->
  exists inds g',
    draw_batch_inds n (mkHeap b g) = (Ok inds, mkHeap b g') /\
    length inds = Z.to_nat n.
Proof.
  intros Hfull Hpos Hn. rewrite draw_batch_inds_run, Hfull.
  destruct (randint_returns 0 (pos b) n g Hn) as (l & g' & Hr); [lia|].
  rewrite Hr. exists l, g'. split; [reflexivity|].
  apply randint_range in Hr. apply Hr.
Qed.

(** An index array that is offset and reduced modulo the capacity. *)
Lemma offset_index_not_cursor (c p r : Z) :
  1 <= r < c -> (if c =? 0 then 0 else (r + p) mod c) <> p.
Proof.
  intros Hr. destruct (Z.eqb_spec c 0); [lia|].
  intros Heq.
  assert (Hp : 0 <= p < c) by (rewrite <- Heq; apply Z.mod_pos_bound; lia).
  destruct (Z_lt_ge_dec (r + p) c).
  - rewrite Z.mod_small in Heq by lia. lia.
  - assert (E : (r + p) mod c = r + p - c).
    { symmetry. apply Z.mod_unique with (q := 1); lia. }
    lia.
Qed.

Lemma reduced_index_in_range (c i : Z) :
  0 < c -> 0 <= (if c =? 0 then 0 else i mod c) < c.
Proof.
  intros Hc. destruct (Z.eqb_spec c 0); [lia|]. apply Z.mod_pos_bound; lia.
Qed.

(** What [gather] reads, array by array, when it returns. *)
Lemma gather_inv (b : ReplayBuffer.t Obs Act Rew Done) g inds m batch h' :
  gather inds m (mkHeap b g) = (Ok batch, h') ->
  h' = mkHeap b g /\
  Np.take_env0 (observations b) inds = Ok (data (TypeAliases.observations batch)) /\
  Np.take_env0 (actions b) inds = Ok (data (TypeAliases.actions batch)) /\
  Np.take (rewards b) inds = Ok (data (TypeAliases.rewards batch)) /\
  Np.take_env0 (observations b)
    (Np.mod_scalar (Np.add_scalar inds 1) (buffer_size b))
    = Ok (data (next_observations batch)) /\
  Np.take (dones b) inds = Ok (data (TypeAliases.dones batch)).
Proof.
  unfold gather, bind, getattr, gets, lift, ret. simpl.
  destruct (Np.take_env0 (observations b) inds) as [o|e]; [|discriminate].
  destruct (Np.take_env0 (actions b) inds) as [a|e]; [|discriminate].
  destruct (Np.take (rewards b) inds) as [r|e]; [|discriminate].
  destruct (Np.take_env0 (observations b) _) as [o'|e]; [|discriminate].
  destruct (Np.take (dones b) inds) as [d|e]; [|discriminate].
  intros H. injection H as <- <-. unfold as_dtype.
  destruct (is_torch m); simpl; repeat split; reflexivity.
Qed.

(** When [sample] returns, the dtype was a valid one, the index array was
    drawn, and the batch was read at it. *)
Lemma sample_inv (b : ReplayBuffer.t Obs Act Rew Done) g n dt batch h' :
  sample n dt (mkHeap b g) = (Ok batch, h') ->
  exists m inds g',
    resolve_dtype dt (mkHeap b g) = (Ok m, mkHeap b g) /\
    draw_batch_inds n (mkHeap b g) = (Ok inds, mkHeap b g') /\
    gather inds m (mkHeap b g') = (Ok batch, h').
Proof.
  unfold sample, bind.
  assert (Hdt : snd (resolve_dtype dt (mkHeap b g)) = mkHeap b g)
    by (destruct dt; reflexivity).
  destruct (resolve_dtype dt (mkHeap b g)) as [[m|e] h1]; simpl in Hdt; subst h1;
    [|discriminate].
  pose proof (draw_batch_inds_self b g n) as Hself.
  destruct (draw_batch_inds n (mkHeap b g)) as [[inds|e] [b1 g']];
    simpl in Hself; subst b1; [|discriminate].
  intros H. exists m, inds, g'. repeat split. exact H.
Qed.

(** Reading all slots of a well-formed array at indices in range. *)
Lemma take_in_range {A} (a : list A) (inds : list Z) :
  Forall (fun i => 0 <= i < Z.of_nat (length a)) inds ->
  exists l, Np.take a inds = Ok l /\ length l = length inds.
Proof.
  intros H. apply mapM_ok. eapply Forall_impl; [exact H|].
  intros i Hi. simpl in Hi. destruct (getitem_in_range a i Hi) as (x & _ & Hx).
  eauto.
Qed.

Lemma take_env0_in_range {A} (a : list (list A)) (inds : list Z) :
  Forall (fun row => row <> []) a ->
  Forall (fun i => 0 <= i < Z.of_nat (length a)) inds ->
  exists l, Np.take_env0 a inds = Ok l /\ length l = length inds.
Proof.
  intros Hrows H. apply mapM_ok. eapply Forall_impl; [exact H|].
  intros i Hi. simpl in Hi.
  destruct (getitem_in_range a i Hi) as (row & Hrow & Hx).
  rewrite Hx. simpl.
  assert (Hne : row <> []).
  { rewrite Forall_forall in Hrows. apply Hrows.
    apply list_elem_of_lookup. eauto. }
  destruct row as [|x row]; [congruence|]. exists x. reflexivity.
Qed.

(** [gather] returns on a well-formed buffer with an environment, for
    indices in range. *)
Lemma gather_returns (b : ReplayBuffer.t Obs Act Rew Done) g inds m :
  well_formed b -> has_env0 b ->
  Forall (fun i => 0 <= i < buffer_size b) inds ->
  exists batch, gather inds m (mkHeap b g) = (Ok batch, mkHeap b g) /\
                length (data (next_observations batch)) = length inds.
Proof.
  intros (Hp & Ho & Ha & Hr & Hd) (Hobs & Hact) Hin.
  unfold gather, bind, getattr, gets, lift, ret. simpl.
  destruct (take_env0_in_range (observations b) inds Hobs) as (o & -> & _).
  { rewrite Ho. exact Hin. }
  destruct (take_env0_in_range (actions b) inds Hact) as (a & -> & _).
  { rewrite Ha. exact Hin. }
  destruct (take_in_range (rewards b) inds) as (r & -> & _).
  { rewrite Hr. exact Hin. }
  destruct (take_env0_in_range (observations b)
              (Np.mod_scalar (Np.add_scalar inds 1) (buffer_size b)) Hobs)
    as (o' & -> & Hlen).
  { rewrite Ho. unfold Np.mod_scalar, Np.add_scalar.
    apply Forall_forall. intros j Hj.
    apply list_elem_of_In, in_map_iff in Hj. destruct Hj as (x & <- & _).
    apply reduced_index_in_range. lia. }
  destruct (take_in_range (dones b) inds) as (d & -> & _).
  { rewrite Hd. exact Hin. }
  eexists. split; [reflexivity|]. simpl.
  unfold as_dtype. destruct (is_torch m); simpl; rewrite Hlen;
    unfold Np.mod_scalar, Np.add_scalar; rewrite !length_map; reflexivity.
Qed.

End BufferSampling.

(** ** The replay buffer: what the specification states about insertion *)

Section InsertionProperties.
Import Py TypeAliases ReplayBuffer.
Context {Obs Act Rew Done : Type}.

(** C2. On every buffer state of the data model, [add_trajectory] writes
    observation, action, reward and done at [pos], then next_observation at
    [(pos + 1) mod buffer_size], increments [pos], and when the incremented
    [pos] equals [buffer_size] sets [full] and resets [pos] to 0 (the state
    [add_spec]); and after exactly [buffer_size] insertions into a fresh
    buffer [full] is true and [pos] is 0. *)
Theorem add_trajectory_contract
    (b : ReplayBuffer.t Obs Act Rew Done) (g : Np.RandomState)
    (o : list Obs) (a : list Act) (r : list Rew) (o' : list Obs) (d : list Done)
    (c : Z) (n_envs : nat) (zo : Obs) (za : Act) (zr : Rew) (zd : Done)
    (dev : string) (trs : list (Transition Obs Act Rew Done)) :
  well_formed b ->
  1 <= c ->
  Z.of_nat (length trs) = c ->
  add_trajectory o a r o' d (mkHeap b g)
    = (Ok tt, mkHeap (add_spec b o a r o' d) g)
  /\ exists b', add_all trs (mkHeap (init c n_envs zo za zr zd dev) g)
                  = (Ok tt, mkHeap b' g)
                /\ full b' = true /\ pos b' = 0.
Proof.
  intros Hwf Hc Hlen. split.
  - apply add_trajectory_run. exact Hwf.
  - destruct (add_all_reaching_capacity trs (init c n_envs zo za zr zd dev) g)
      as (b' & Hrun & _ & _ & Hpos & Hfull).
    + apply init_well_formed. exact Hc.
    + simpl. lia.
    + exists b'. auto.
Qed.

(** C3, as amended. For every sequence of [n] calls of [add_trajectory] on
    a fresh buffer with [n] strictly below the capacity, no call raises,
    [full] is still false and [pos] equals [n]. *)
Theorem insertions_below_capacity
    (c : Z) (n_envs : nat) (zo : Obs) (za : Act) (zr : Rew) (zd : Done)
    (dev : string) (g : Np.RandomState)
    (trs : list (Transition Obs Act Rew Done)) :
  Z.of_nat (length trs) < c ->
  exists b', add_all trs (mkHeap (init c n_envs zo za zr zd dev) g)
               = (Ok tt, mkHeap b' g)
             /\ full b' = false /\ pos b' = Z.of_nat (length trs).
Proof.
  intros Hlt.
  destruct trs as [|tr trs].
  - eexists. split; [reflexivity|]. split; reflexivity.
  - destruct (add_all_below (tr :: trs) (init c n_envs zo za zr zd dev) g)
      as (b' & Hrun & _ & _ & Hpos & Hfull).
    + apply init_well_formed. simpl length in Hlt. lia.
    + unfold init. cbn [pos buffer_size]. lia.
    + exists b'. split; [exact Hrun|]. split; [exact Hfull|].
      rewrite Hpos. unfold init. cbn [pos]. lia.
Qed.

End InsertionProperties.

Lemma add_trajectory_contract_witness :
  ReplayBuffer.well_formed Scenario.partly_filled /\
  ReplayBuffer.add_trajectory [2] [0] [30] [3] [0]
    (ReplayBuffer.mkHeap Scenario.partly_filled Scenario.gen)
  = (Py.Ok tt, ReplayBuffer.mkHeap Scenario.filled Scenario.gen) /\
  exists b', ReplayBuffer.add_all Scenario.three
               (ReplayBuffer.mkHeap Scenario.fresh Scenario.gen)
             = (Py.Ok tt, ReplayBuffer.mkHeap b' Scenario.gen)
             /\ ReplayBuffer.full b' = true /\ ReplayBuffer.pos b' = 0.
Proof.
  assert (Hwf : ReplayBuffer.well_formed Scenario.partly_filled)
    by (unfold ReplayBuffer.well_formed; simpl; lia).
  split; [exact Hwf|].
  refine (add_trajectory_contract Scenario.partly_filled Scenario.gen
            [2] [0] [30] [3] [0] 3 1 0 0 0 0 "cpu" Scenario.three Hwf _ _).
  - lia.
  - reflexivity.
Defined.

(** C3 as stated fails at [n = buffer_size]: after three insertions into a
    fresh buffer of capacity 3, [full] is true and [pos] is 0, not 3. *)
Lemma insertions_up_to_capacity_counterexample :
  Z.of_nat (length Scenario.three) <= ReplayBuffer.buffer_size Scenario.fresh /\
  exists b', ReplayBuffer.add_all Scenario.three
               (ReplayBuffer.mkHeap Scenario.fresh Scenario.gen)
             = (Py.Ok tt, ReplayBuffer.mkHeap b' Scenario.gen)
             /\ ~ (ReplayBuffer.full b' = false /\
                   ReplayBuffer.pos b' = Z.of_nat (length Scenario.three)).
Proof.
  split; [simpl; lia|].
  exists Scenario.filled. split; [reflexivity|].
  simpl. intros [H _]. discriminate H.
Qed.

Lemma insertions_below_capacity_witness :
  exists b', ReplayBuffer.add_all Scenario.two
               (ReplayBuffer.mkHeap Scenario.fresh Scenario.gen)
             = (Py.Ok tt, ReplayBuffer.mkHeap b' Scenario.gen)
             /\ ReplayBuffer.full b' = false /\ ReplayBuffer.pos b' = 2.
Proof.
  refine (insertions_below_capacity 3 1 0 0 0 0 "cpu" Scenario.gen Scenario.two _).
  simpl. lia.
Defined.

(** ** The replay buffer: what the specification states about sampling *)

Section SamplingProperties.
Import Py TypeAliases ReplayBuffer.
Context {Obs Act Rew Done : Type}.

Lemma take_env0_mapped {A} (a : list (list A)) (f : Z -> Z) (inds : list Z)
    (l : list A) :
  Np.take_env0 a (map f inds) = Ok l ->
  Forall2 (fun i x => bind_result (Np.getitem a (f i))
                        (fun row => Np.getitem row 0) = Ok x) inds l.
Proof.
  intros H. apply mapM_Forall2 in H.
  remember (map f inds) as js eqn:Hjs. revert inds Hjs.
  induction H as [|j x js l Hx _ IH]; intros [|i inds] Hjs;
    try discriminate; [constructor|].
  injection Hjs as -> ->. constructor; [exact Hx | apply IH; reflexivity].
Qed.

(** C1. On every buffer with [full = true] and for every batch size, every
    index that [sample] produces, [(randint(1, buffer_size) + pos) mod
    buffer_size], differs from the write cursor [pos]; these are the
    indices the batch is read at; and with a capacity of at least 2 the
    indices are produced. *)
Theorem full_sample_excludes_cursor
    (b : ReplayBuffer.t Obs Act Rew Done) (g : Np.RandomState) (n : Z) :
  full b = true ->
  (forall inds h',
      draw_batch_inds n (mkHeap b g) = (Ok inds, h') ->
      Forall (fun i => i <> pos b) inds)
  /\ (forall dt batch h',
         sample n dt (mkHeap b g) = (Ok batch, h') ->
         exists inds g',
           draw_batch_inds n (mkHeap b g) = (Ok inds, mkHeap b g') /\
           Np.take_env0 (observations b) inds
             = Ok (data (TypeAliases.observations batch)))
  /\ (2 <= buffer_size b -> 0 <= n ->
      exists inds g',
        draw_batch_inds n (mkHeap b g) = (Ok inds, mkHeap b g') /\
        length inds = Z.to_nat n).
Proof.
  intros Hfull. split; [|split].
  - intros inds h'. rewrite draw_batch_inds_run, Hfull.
    destruct (Np.randint 1 (buffer_size b) n g) as [[l|e] g'] eqn:Hr;
      [|discriminate].
    intros H. injection H as <- _.
    apply randint_range in Hr. destruct Hr as [Hr _].
    unfold Np.mod_scalar, Np.add_scalar. rewrite map_map.
    apply Forall_forall. intros i Hi.
    apply list_elem_of_In, in_map_iff in Hi. destruct Hi as (r & <- & Hin).
    rewrite Forall_forall in Hr. apply offset_index_not_cursor.
    apply Hr, list_elem_of_In, Hin.
  - intros dt batch h' Hs.
    destruct (sample_inv _ _ _ _ _ _ Hs) as (m & inds & g' & _ & Hd & Hg).
    exists inds, g'. split; [exact Hd|].
    apply gather_inv in Hg. apply Hg.
  - intros Hc Hn. apply full_draw_returns; assumption.
Qed.

(** C6. On every buffer with [full = false] and [pos >= 1], every index
    that [sample] produces lies in [[0, pos)]; these are the indices the
    batch is read at; and the indices are produced. *)
Theorem unfilled_sample_within_written
    (b : ReplayBuffer.t Obs Act Rew Done) (g : Np.RandomState) (n : Z) :
  full b = false ->
  1 <= pos b ->
  (forall inds h',
      draw_batch_inds n (mkHeap b g) = (Ok inds, h') ->
      Forall (fun i => 0 <= i < pos b) inds)
  /\ (forall dt batch h',
         sample n dt (mkHeap b g) = (Ok batch, h') ->
         exists inds g',
           draw_batch_inds n (mkHeap b g) = (Ok inds, mkHeap b g') /\
           Np.take_env0 (observations b) inds
             = Ok (data (TypeAliases.observations batch)))
  /\ (0 <= n ->
      exists inds g',
        draw_batch_inds n (mkHeap b g) = (Ok inds, mkHeap b g') /\
        length inds = Z.to_nat n).
Proof.
  intros Hfull Hpos. split; [|split].
  - intros inds h'. rewrite draw_batch_inds_run, Hfull.
    destruct (Np.randint 0 (pos b) n g) as [[l|e] g'] eqn:Hr; [|discriminate].
    intros H. injection H as <- _.
    apply randint_range in Hr. apply Hr.
  - intros dt batch h' Hs.
    destruct (sample_inv _ _ _ _ _ _ Hs) as (m & inds & g' & _ & Hd & Hg).
    exists inds, g'. split; [exact Hd|].
    apply gather_inv in Hg. apply Hg.
  - intros Hn. apply unfilled_draw_returns; assumption.
Qed.

Lemma resolve_dtype_pure (dt : dtype_arg) (h : Heap Obs Act Rew Done) :
  resolve_dtype dt h = (fst (resolve_dtype dt h), h).
Proof. destruct dt; reflexivity. Qed.

(** On a well-formed buffer the indices drawn are indices of slots. *)
Lemma draw_batch_inds_in_range
    (b : ReplayBuffer.t Obs Act Rew Done) g n inds h' :
  well_formed b ->
  draw_batch_inds n (mkHeap b g) = (Ok inds, h') ->
  Forall (fun i => 0 <= i < buffer_size b) inds.
Proof.
  intros (Hp & _). rewrite draw_batch_inds_run.
  destruct (full b).
  - destruct (Np.randint 1 (buffer_size b) n g) as [[l|e] g']; [|discriminate].
    intros H. injection H as <- _.
    unfold Np.mod_scalar. apply Forall_forall. intros i Hi.
    apply list_elem_of_In, in_map_iff in Hi. destruct Hi as (x & <- & _).
    apply reduced_index_in_range. lia.
  - destruct (Np.randint 0 (pos b) n g) as [[l|e] g'] eqn:Hr; [|discriminate].
    intros H. injection H as <- _.
    apply randint_range in Hr. destruct Hr as [Hr _].
    eapply Forall_impl; [exact Hr|]. simpl. intros; lia.
Qed.

(** C5. For every sampled index [i], the batch that [sample] returns has,
    at the place of [i], the stored observation of slot [(i + 1) mod
    buffer_size] as its next observation (and the stored observation of
    slot [i] as its observation); and on a buffer that holds data [sample]
    returns such a batch. *)
Theorem sampled_next_observation_is_following_slot
    (b : ReplayBuffer.t Obs Act Rew Done) (g : Np.RandomState) (n : Z)
    (dt : dtype_arg) :
  well_formed b ->
  (forall batch h',
      sample n dt (mkHeap b g) = (Ok batch, h') ->
      exists inds g',
        draw_batch_inds n (mkHeap b g) = (Ok inds, mkHeap b g') /\
        Forall2 (fun i o' =>
                   stored_observation b ((i + 1) mod buffer_size b) = Ok o')
                inds (data (next_observations batch)) /\
        Forall2 (fun i o => stored_observation b i = Ok o)
                inds (data (TypeAliases.observations batch)))
  /\ (has_env0 b ->
      (if full b then 2 <= buffer_size b else 1 <= pos b) ->
      0 <= n ->
      (exists m, fst (resolve_dtype dt (mkHeap b g)) = Ok m) ->
      exists batch g',
        sample n dt (mkHeap b g) = (Ok batch, mkHeap b g') /\
        length (data (next_observations batch)) = Z.to_nat n).
Proof.
  intros Hwf. split.
  - intros batch h' Hs.
    destruct (sample_inv _ _ _ _ _ _ Hs) as (m & inds & g' & _ & Hd & Hg).
    exists inds, g'. split; [exact Hd|].
    apply gather_inv in Hg.
    destruct Hg as (_ & Ho & _ & _ & Ho' & _). split.
    + unfold Np.mod_scalar, Np.add_scalar in Ho'. rewrite map_map in Ho'.
      apply take_env0_mapped in Ho'.
      eapply Forall2_impl; [exact Ho'|]. simpl. intros i o' Hi.
      unfold stored_observation.
      destruct Hwf as (Hp & _).
      destruct (Z.eqb_spec (buffer_size b) 0); [lia | exact Hi].
    + rewrite <- (map_id inds) in Ho. apply take_env0_mapped in Ho.
      exact Ho.
  - intros Henv Hdata Hn [m Hm].
    assert (Hdraw : exists inds g',
               draw_batch_inds n (mkHeap b g) = (Ok inds, mkHeap b g') /\
               length inds = Z.to_nat n).
    { destruct (full b) eqn:Hfull.
      - apply (full_draw_returns b g n Hfull Hdata Hn).
      - apply (unfilled_draw_returns b g n Hfull Hdata Hn). }
    destruct Hdraw as (inds & g' & Hd & Hlen).
    destruct (gather_returns b g' inds m Hwf Henv) as (batch & Hg & Hlen').
    { eapply draw_batch_inds_in_range; eauto. }
    exists batch, g'. unfold sample, bind.
    rewrite resolve_dtype_pure, Hm, Hd, Hg. split; [reflexivity | congruence].
Qed.

(** C7, as amended. On a buffer nothing was written to ([full = false],
    [pos = 0]), [sample] with a batch size of at least 1 and a valid dtype
    returns no batch: there is no guard in [sample], and the call ends in
    the [ValueError] that [np.random.randint] raises for the empty range
    [[0, 0)]. The buffer and the generator are as before. *)
Theorem sample_before_any_write_raises
    (b : ReplayBuffer.t Obs Act Rew Done) (g : Np.RandomState) (n : Z)
    (dt : dtype_arg) (m : TrajectoryType) :
  full b = false ->
  pos b = 0 ->
  1 <= n ->
  fst (resolve_dtype dt (mkHeap b g)) = Ok m ->
  sample n dt (mkHeap b g) = (Raise (ValueError "low >= high"), mkHeap b g).
Proof.
  intros Hfull Hpos Hn Hm. unfold sample, bind.
  rewrite resolve_dtype_pure, Hm, draw_batch_inds_run, Hfull, Hpos.
  rewrite randint_empty_range by lia. reflexivity.
Qed.

(** The pieces [sample] is made of leave the buffer object alone. *)
Lemma read_only_bind {A B} (m : M (Heap Obs Act Rew Done) A)
    (k : A -> M (Heap Obs Act Rew Done) B) :
  read_only m -> (forall a, read_only (k a)) -> read_only (bind m k).
Proof.
  intros Hm Hk h. unfold bind. specialize (Hm h).
  destruct (m h) as [[a|e] h1]; simpl in Hm.
  - rewrite Hk. exact Hm.
  - exact Hm.
Qed.

Lemma read_only_ret {A} (a : A) :
  read_only (ret (S := Heap Obs Act Rew Done) a).
Proof. intros h. reflexivity. Qed.

Lemma read_only_lift {A} (r : result A) :
  read_only (lift (S := Heap Obs Act Rew Done) r).
Proof. intros h. reflexivity. Qed.

Lemma read_only_getattr {A} (f : ReplayBuffer.t Obs Act Rew Done -> A) :
  read_only (getattr f).
Proof. intros h. reflexivity. Qed.

Lemma read_only_randint (low high size : Z) :
  read_only (np_random_randint (Obs:=Obs) (Act:=Act) (Rew:=Rew) (Done:=Done)
               low high size).
Proof.
  intros h. unfold np_random_randint.
  destruct (Np.randint low high size (np_random h)). reflexivity.
Qed.

Lemma read_only_sample (n : Z) (dt : dtype_arg) :
  read_only (sample (Obs:=Obs) (Act:=Act) (Rew:=Rew) (Done:=Done) n dt).
Proof.
  unfold sample, resolve_dtype, draw_batch_inds, gather.
  repeat first
    [ apply read_only_ret | apply read_only_lift | apply read_only_getattr
    | apply read_only_randint
    | apply read_only_bind; [|intros ?]
    | match goal with |- read_only (match ?x with _ => _ end) => destruct x end
    | match goal with |- read_only (if ?x then _ else _) => destruct x end ].
Qed.

(** C10. [sample] is read-only: for every buffer, batch size and dtype,
    and whether or not the call returns, the buffer object after the call
    is the one before it; [pos], [full] and the stored observations,
    actions, rewards and dones are identical. *)
Theorem sample_leaves_buffer_unchanged
    (h : Heap Obs Act Rew Done) (n : Z) (dt : dtype_arg) :
  let b' := self (snd (sample n dt h)) in
  b' = self h /\
  pos b' = pos (self h) /\
  full b' = full (self h) /\
  observations b' = observations (self h) /\
  actions b' = actions (self h) /\
  rewards b' = rewards (self h) /\
  dones b' = dones (self h).
Proof.
  simpl. rewrite (read_only_sample n dt h). repeat split.
Qed.

End SamplingProperties.

Lemma full_sample_excludes_cursor_witness :
  ReplayBuffer.full Scenario.filled = true /\
  fst (ReplayBuffer.draw_batch_inds 4
         (ReplayBuffer.mkHeap Scenario.filled Scenario.gen))
  = Py.Ok [1; 2; 1; 2] /\
  Forall (fun i => i <> ReplayBuffer.pos Scenario.filled) [1; 2; 1; 2].
Proof.
  split; [reflexivity|]. split; [reflexivity|].
  refine (proj1 (full_sample_excludes_cursor Scenario.filled Scenario.gen 4 _)
            [1; 2; 1; 2]
            (snd (ReplayBuffer.draw_batch_inds 4
                    (ReplayBuffer.mkHeap Scenario.filled Scenario.gen))) _);
    reflexivity.
Defined.

Lemma unfilled_sample_within_written_witness :
  ReplayBuffer.full Scenario.partly_filled = false /\
  1 <= ReplayBuffer.pos Scenario.partly_filled /\
  fst (ReplayBuffer.draw_batch_inds 4
         (ReplayBuffer.mkHeap Scenario.partly_filled Scenario.gen))
  = Py.Ok [0; 1; 0; 1] /\
  Forall (fun i => 0 <= i < ReplayBuffer.pos Scenario.partly_filled) [0; 1; 0; 1].
Proof.
  split; [reflexivity|]. split; [simpl; lia|]. split; [reflexivity|].
  refine (proj1 (unfilled_sample_within_written Scenario.partly_filled
                   Scenario.gen 4 _ _)
            [0; 1; 0; 1]
            (snd (ReplayBuffer.draw_batch_inds 4
                    (ReplayBuffer.mkHeap Scenario.partly_filled Scenario.gen))) _).
  - reflexivity.
  - simpl. lia.
  - reflexivity.
Defined.

Lemma sampled_next_observation_is_following_slot_witness :
  ReplayBuffer.well_formed Scenario.filled /\
  exists batch inds g' g'',
    ReplayBuffer.sample 4 (TypeAliases.dtype_str "Torch")
      (ReplayBuffer.mkHeap Scenario.filled Scenario.gen)
    = (Py.Ok batch, ReplayBuffer.mkHeap Scenario.filled g') /\
    ReplayBuffer.draw_batch_inds 4
      (ReplayBuffer.mkHeap Scenario.filled Scenario.gen)
    = (Py.Ok inds, ReplayBuffer.mkHeap Scenario.filled g'') /\
    Forall2 (fun i o' =>
               ReplayBuffer.stored_observation Scenario.filled
                 ((i + 1) mod ReplayBuffer.buffer_size Scenario.filled) = Py.Ok o')
            inds (TypeAliases.data (TypeAliases.next_observations batch)).
Proof.
  assert (Hwf : ReplayBuffer.well_formed Scenario.filled)
    by (unfold ReplayBuffer.well_formed; simpl; lia).
  split; [exact Hwf|].
  destruct (sampled_next_observation_is_following_slot Scenario.filled
              Scenario.gen 4 (TypeAliases.dtype_str "Torch") Hwf) as [Hread Hret].
  destruct Hret as (batch & g' & Hs & _).
  - split; simpl; repeat constructor; discriminate.
  - simpl. lia.
  - lia.
  - exists TypeAliases.TORCH. reflexivity.
  - destruct (Hread _ _ Hs) as (inds & g'' & Hd & Hnext & _).
    exists batch, inds, g', g''. repeat split; assumption.
Defined.

(** C7 as stated fails: on the fresh buffer of capacity 3, [sample] with
    batch size 1 raises, so no batch, valid or not, comes back. *)
Lemma sample_on_empty_buffer_counterexample :
  ReplayBuffer.full Scenario.fresh = false /\
  ReplayBuffer.pos Scenario.fresh = 0 /\
  fst (ReplayBuffer.sample 1 (TypeAliases.dtype_str "numpy")
         (ReplayBuffer.mkHeap Scenario.fresh Scenario.gen))
  = Py.Raise (Py.ValueError "low >= high") /\
  ~ (exists batch,
        fst (ReplayBuffer.sample 1 (TypeAliases.dtype_str "numpy")
               (ReplayBuffer.mkHeap Scenario.fresh Scenario.gen))
        = Py.Ok batch).
Proof.
  repeat split. intros [batch H]. discriminate H.
Qed.

Lemma sample_before_any_write_raises_witness :
  ReplayBuffer.sample 2 (TypeAliases.dtype_member TypeAliases.TORCH)
    (ReplayBuffer.mkHeap Scenario.fresh Scenario.gen)
  = (Py.Raise (Py.ValueError "low >= high"),
     ReplayBuffer.mkHeap Scenario.fresh Scenario.gen).
Proof.
  refine (sample_before_any_write_raises Scenario.fresh Scenario.gen 2
            (TypeAliases.dtype_member TypeAliases.TORCH) TypeAliases.TORCH
            _ _ _ _).
  - reflexivity.
  - reflexivity.
  - lia.
  - reflexivity.
Defined.

(** ** The TD-zero target *)

Section TDProperties.
Import Py SignalProcessing.
Context {R : Type} (rO rI : R) (radd rmul rsub : R -> R -> R) (ropp : R -> R).
Context (Rth : ring_theory rO rI radd rmul rsub ropp eq).

Add Ring batch_ring : Rth.

Lemma TD_zero_element_done (gamma reward next_value : R) :
  TD_zero_element rI radd rmul rsub gamma reward next_value rI = reward.
Proof using Rth. unfold TD_zero_element. ring. Qed.

Lemma TD_zero_element_ones :
  TD_zero_element rI radd rmul rsub rI rI rI rO = radd rI rI.
Proof using Rth. unfold TD_zero_element. ring. Qed.

(** The batch is computed row by row. *)
Lemma TD_zero_rows_lookup (gamma : R) (rewards next_values dones : list R) :
  length next_values = length rewards ->
  length dones = length rewards ->
  exists targets,
    TD_zero_rows rI radd rmul rsub gamma rewards next_values dones = Some targets /\
    length targets = length rewards /\
    forall (i : nat) r v d,
      rewards !! i = Some r -> next_values !! i = Some v -> dones !! i = Some d ->
      targets !! i = Some (TD_zero_element rI radd rmul rsub gamma r v d).
Proof.
  revert next_values dones.
  induction rewards as [|r0 rs IH]; intros [|v0 vs] [|d0 ds] Hv Hd;
    try discriminate.
  - exists []. repeat split. intros i r v d H. destruct i; discriminate H.
  - simpl in Hv, Hd. injection Hv as Hv. injection Hd as Hd.
    destruct (IH vs ds Hv Hd) as (l & Hl & Hlen & Hlook).
    exists (TD_zero_element rI radd rmul rsub gamma r0 v0 d0 :: l).
    simpl. rewrite Hl. repeat split; [simpl; congruence|].
    intros [|i] r v d Hr Hvv Hdd; simpl in *.
    + congruence.
    + apply Hlook; assumption.
Qed.

Lemma TD_zero_rows_ones (n : nat) :
  TD_zero_rows rI radd rmul rsub rI
    (replicate n rI) (replicate n rI) (replicate n rO)
  = Some (replicate n (radd rI rI)).
Proof using Rth.
  induction n as [|n IH]; simpl; [reflexivity|].
  rewrite IH, TD_zero_element_ones. reflexivity.
Qed.

(** C4. For every batch of rewards, next-state values and done flags (of
    one length), the TD-zero target is [reward + gamma * (1 - done) *
    next_value] element by element, with [gamma] defaulting to 1; an
    element with [done = 1] has its reward alone as target; and with
    [gamma = 1] (given, or by default), all rewards 1, all next values 1
    and all dones 0, every target is [1 + 1]. *)
Theorem TD_zero_target :
  (forall (rewards next_values dones : list R) (gamma : option R),
      length next_values = length rewards ->
      length dones = length rewards ->
      exists targets,
        TD_zero rI radd rmul rsub rewards next_values dones gamma = Ok targets /\
        length targets = length rewards /\
        forall (i : nat) r v d,
          rewards !! i = Some r -> next_values !! i = Some v ->
          dones !! i = Some d ->
          targets !! i
            = Some (radd r (rmul (rmul (default rI gamma) (rsub rI d)) v)) /\
          (d = rI -> targets !! i = Some r))
  /\ (forall n : nat,
         TD_zero rI radd rmul rsub
           (replicate n rI) (replicate n rI) (replicate n rO) (Some rI)
         = Ok (replicate n (radd rI rI)) /\
         TD_zero rI radd rmul rsub
           (replicate n rI) (replicate n rI) (replicate n rO) None
         = Ok (replicate n (radd rI rI))).
Proof using Rth.
  split.
  - intros rewards next_values dones gamma Hv Hd.
    destruct (TD_zero_rows_lookup (default rI gamma) rewards next_values dones
                Hv Hd) as (l & Hl & Hlen & Hlook).
    exists l. unfold TD_zero.
    replace (match gamma with Some g => g | None => rI end)
      with (default rI gamma) by (destruct gamma; reflexivity).
    rewrite Hl. repeat split; [exact Hlen| |].
    + apply (Hlook i r v d); assumption.
    + intros ->. rewrite (Hlook i r v rI) by assumption.
      rewrite TD_zero_element_done. reflexivity.
  - intros n. unfold TD_zero. rewrite TD_zero_rows_ones. split; reflexivity.
Qed.

End TDProperties.

Lemma TD_zero_target_witness :
  SignalProcessing.TD_zero 1 Z.add Z.mul Z.sub [1; 1; 1] [1; 1; 1] [0; 0; 0] (Some 1)
  = Py.Ok [2; 2; 2] /\
  exists targets,
    SignalProcessing.TD_zero 1 Z.add Z.mul Z.sub [5; 7; 9] [100; 200; 300] [0; 1; 0]
      None = Py.Ok targets /\
    targets !! 1%nat = Some 7.
Proof.
  destruct (TD_zero_target 0 1 Z.add Z.mul Z.sub Z.opp Zth) as [Hgen Hones].
  split; [exact (proj1 (Hones 3%nat))|].
  destruct (Hgen [5; 7; 9] [100; 200; 300] [0; 1; 0] None eq_refl eq_refl)
    as (targets & Hrun & _ & Hlook).
  exists targets. split; [exact Hrun|].
  exact (proj2 (Hlook 1%nat 7 200 1 eq_refl eq_refl eq_refl) eq_refl).
Defined.

(** ** The regression updater *)

Section UpdaterFacts.
Import Py Updater.
Context {Param Model Tensor : Type}.
Context (model_parameters : Model -> list Param)
        (forward : Model -> Tensor -> Tensor -> Tensor)
        (item : Tensor -> float).

(** [run_optimizer] asks torch, in this order, to zero the gradients, to
    backpropagate the loss, to clip the gradient norm exactly when
    [max_grad > 0], and to update the parameters. The clipping acts on the
    items its iterator still holds, and consumes them. *)
Lemma run_optimizer_trace (self : DeepRegression Tensor)
    (optimizer : Optimizer Param) (loss : Tensor) (it : iterator)
    (w : World Param Tensor) :
  run_optimizer self optimizer loss it w
  = (Ok tt,
     mkWorld
       (if PrimFloat.ltb 0 (max_grad self)
        then <[it := []]> (iterators w) else iterators w)
       (trace w
        ++ [ZeroGrad (param_groups optimizer); Backward loss]
        ++ (if PrimFloat.ltb 0 (max_grad self)
            then [ClipGradNorm (default [] (iterators w !! it)) (max_grad self)]
            else [])
        ++ [Step (param_groups optimizer) (lr optimizer)])).
Proof.
  unfold run_optimizer, clip_grad_norm_, drain, emit, bind, modify, ret.
  destruct (PrimFloat.ltb 0 (max_grad self)); simpl;
    rewrite <- ?app_assoc; reflexivity.
Qed.

(** [__call__] on a model that has parameters: the optimizer's constructor
    takes all the items of the iterator [params], and [run_optimizer] is
    handed the same iterator, so that the clipping acts on the empty list
    of parameters. *)
Lemma call_trace (self : DeepRegression Tensor) (model : Model)
    (observations actions targets : Tensor) (learning_rate : float)
    (w : World Param Tensor) :
  model_parameters model <> [] ->
  let ps := model_parameters model in
  let l := loss_class self (forward model observations actions) targets in
  __call__ model_parameters forward item self model observations actions
    targets learning_rate w
  = (Ok (mkUpdaterLog (item l)),
     mkWorld
       (iterators w ++ [[]])
       (trace w
        ++ [ZeroGrad ps; Backward l]
        ++ (if PrimFloat.ltb 0 (max_grad self)
            then [ClipGradNorm [] (max_grad self)] else [])
        ++ [Step ps learning_rate])).
Proof.
  intros Hne ps l. subst ps l.
  cbv [__call__ bind parameters optimizer_class drain ret raise].
  cbn [iterators trace].
  rewrite list_lookup_middle by reflexivity. cbn [default from_option id].
  destruct (model_parameters model) as [|p ps] eqn:Hps; [congruence|].
  rewrite run_optimizer_trace. cbn [iterators trace param_groups lr].
  rewrite insert_app_r_alt by lia. rewrite Nat.sub_diag.
  cbn [insert list_insert].
  rewrite lookup_app_r by lia. rewrite Nat.sub_diag.
  cbn [lookup list_lookup default from_option id].
  destruct (PrimFloat.ltb 0 (max_grad self)).
  - rewrite insert_app_r_alt by lia. rewrite Nat.sub_diag. reflexivity.
  - reflexivity.
Qed.

End UpdaterFacts.

(** C8. What the updater does on the model of the scenario with
    [max_grad = 0.5]: gradients are zeroed, the loss is backpropagated, the
    gradient norm is clipped and the update is applied, in this order, and
    the log carries the scalar loss; but the clipping is applied to no
    parameter at all, since the iterator it is handed was emptied when the
    optimizer was built. The gradients of weight and bias enter the update
    as backpropagation left them. *)
Theorem clipping_acts_on_no_parameter :
  Updater.__call__ UpdaterScenario.model_parameters UpdaterScenario.forward
    UpdaterScenario.item UpdaterScenario.clipping UpdaterScenario.model
    1%float 2%float 5%float UpdaterScenario.learning_rate UpdaterScenario.start
  = (Py.Ok (Updater.mkUpdaterLog 4%float),
     Updater.mkWorld [[]]
       [Updater.ZeroGrad ["weight"%string; "bias"%string];
        Updater.Backward 4%float;
        Updater.ClipGradNorm [] 0.5%float;
        Updater.Step ["weight"%string; "bias"%string]
                     UpdaterScenario.learning_rate]).
Proof. vm_compute. reflexivity. Qed.

(** ** The target critic *)

Section TargetCritic.
Import Py TypeAliases DQN.
Context {Obs Act R Params : Type} (rI : R) (radd rmul rsub : R -> R -> R).
Context (max_q : Params -> Obs -> R)
        (regression_step : Params -> list Obs -> list R -> list Act -> Params * float)
        (np_mean : list float -> float).

(** A part of the state that each step of a computation keeps is kept by
    the whole of it. *)
Lemma bind_keeps {S A B X : Type} (f : S -> X) (m : M S A) (k : A -> M S B) :
  (forall s, f (snd (m s)) = f s) ->
  (forall a s, f (snd (k a s)) = f s) ->
  forall s, f (snd (bind m k s)) = f s.
Proof.
  intros Hm Hk s. unfold bind. specialize (Hm s).
  destruct (m s) as [[a|e] s1]; simpl in Hm.
  - rewrite Hk. exact Hm.
  - exact Hm.
Qed.

Lemma updater_keeps_target (observations : list Obs) (targets : list R)
    (actions_index : list Act) (m : ActorCriticWithCriticTarget Params) :
  target_critic (snd (updater regression_step observations targets
                        actions_index m))
  = target_critic m.
Proof.
  unfold updater. destruct (regression_step _ _ _ _). reflexivity.
Qed.

Lemma critic_epoch_keeps_target (batch_size : Z) (a : DQN.t Obs Act R Params) :
  target_critic (model (snd (critic_epoch rI radd rmul rsub max_q
                               regression_step batch_size a)))
  = target_critic (model a).
Proof.
  revert a. unfold critic_epoch.
  apply (bind_keeps (fun s : DQN.t Obs Act R Params => target_critic (model s))).
  { intros s. unfold on_buffer, zoom. destruct (ReplayBuffer.sample_default _ _).
    reflexivity. }
  intros trajectories.
  apply (bind_keeps (fun s : DQN.t Obs Act R Params => target_critic (model s)));
    [reflexivity|].
  intros m.
  apply (bind_keeps (fun s : DQN.t Obs Act R Params => target_critic (model s)));
    [reflexivity|].
  intros target_q_values.
  apply (bind_keeps (fun s : DQN.t Obs Act R Params => target_critic (model s)));
    [|reflexivity].
  intros s. unfold on_model, zoom.
  pose proof (updater_keeps_target
                (data (observations trajectories)) target_q_values
                (data (actions trajectories)) (model s)) as H.
  destruct (updater _ _ _ _ (model s)). exact H.
Qed.

Lemma critic_epochs_loop_keeps_target (batch_size : Z) (n : nat) :
  forall a : DQN.t Obs Act R Params,
    target_critic (model (snd (critic_epochs_loop rI radd rmul rsub max_q
                                 regression_step batch_size n a)))
    = target_critic (model a).
Proof.
  induction n as [|n IH]; [reflexivity|]. simpl.
  apply (bind_keeps (fun s : DQN.t Obs Act R Params => target_critic (model s)));
    [apply critic_epoch_keeps_target|].
  intros l.
  apply (bind_keeps (fun s : DQN.t Obs Act R Params => target_critic (model s)));
    [exact IH | reflexivity].
Qed.

(** C9. After the synchronisation [assign_targets] the target critic's
    parameters are the online critic's, which the synchronisation leaves
    as they were. The gradient step of the updater does not change the
    target critic, nor do the epochs of [_fit]; [_fit] changes it only by
    the synchronisation it ends with: when [_fit] returns the target
    critic equals the online critic, and when it raises the target critic
    is the one before the call. *)
Theorem target_critic_changes_only_by_sync :
  (forall m : ActorCriticWithCriticTarget Params,
      fst (assign_targets m) = Ok tt /\
      target_critic (snd (assign_targets m)) = critic (snd (assign_targets m)) /\
      critic (snd (assign_targets m)) = critic m)
  /\ (forall observations targets actions_index
             (m : ActorCriticWithCriticTarget Params),
         target_critic (snd (updater regression_step observations targets
                               actions_index m))
         = target_critic m)
  /\ (forall batch_size n (a : DQN.t Obs Act R Params),
         target_critic (model (snd (critic_epochs_loop rI radd rmul rsub max_q
                                      regression_step batch_size n a)))
         = target_critic (model a))
  /\ (forall batch_size actor_epochs critic_epochs (a : DQN.t Obs Act R Params),
         match _fit rI radd rmul rsub max_q regression_step np_mean
                 batch_size actor_epochs critic_epochs a with
         | (Ok _, a') => target_critic (model a') = critic (model a')
         | (Raise _, a') => target_critic (model a') = target_critic (model a)
         end).
Proof.
  split; [|split; [|split]].
  - intros m. repeat split.
  - intros. apply updater_keeps_target.
  - intros. apply critic_epochs_loop_keeps_target.
  - intros batch_size actor_epochs critic_epochs a.
    unfold _fit, bind. destruct (critic_epochs <? 0); simpl; [reflexivity|].
    pose proof (critic_epochs_loop_keeps_target batch_size
                  (Z.to_nat critic_epochs) a) as Hloop.
    destruct (critic_epochs_loop _ _ _ _ _ _ _ _ a) as [[ls|e] a1];
      simpl in Hloop; [reflexivity | exact Hloop].
Qed.

End TargetCritic.

(** In the scenario, two epochs move the online critic from 2 to 4, and the
    synchronisation at the end of [_fit] brings the stale target critic to 4
    as well. On the empty buffer the first [sample] raises and both critics
    stay as they were. *)
Lemma fit_synchronises_in_scenario :
  let (r, a) := AgentScenario.fit 4 1 2 AgentScenario.agent in
  r = Py.Ok (DQN.mkLog 0.5%float) /\ DQN.model a = DQN.mkModel 4 4.
Proof. vm_compute. split; reflexivity. Qed.

Lemma fit_on_empty_buffer_raises :
  let (r, a) :=
    AgentScenario.fit 4 1 2
      (DQN.mk (ReplayBuffer.mkHeap Scenario.fresh Scenario.gen) (DQN.mkModel 2 1)) in
  r = Py.Raise (Py.ValueError "low >= high") /\ DQN.model a = DQN.mkModel 2 1.
Proof. vm_compute. split; reflexivity. Qed.

(* ================================================================== *)
(** * Part III: further properties of the code *)
(* ================================================================== *)

(** ** Insertion: the invariant, the ring arithmetic, the frame, the errors *)

Section InsertionCoverage.
Import Py TypeAliases ReplayBuffer.
Context {Obs Act Rew Done : Type}.

(** X1. Any sequence of [add_trajectory] calls on a well-formed buffer runs
    without raising and leaves a well-formed buffer of the same capacity;
    the write position has advanced by the number of calls modulo the
    capacity, and [full] is set exactly if it was set already or the
    position has passed the end of the arrays. *)
Theorem insertions_advance_ring
    (trs : list (Transition Obs Act Rew Done))
    (b : ReplayBuffer.t Obs Act Rew Done) (g : Np.RandomState) :
  well_formed b ->
  exists b', add_all trs (mkHeap b g) = (Ok tt, mkHeap b' g) /\
             well_formed b' /\
             buffer_size b' = buffer_size b /\
             pos b' = (pos b + Z.of_nat (length trs)) mod buffer_size b /\
             full b' = full b || (buffer_size b <=? pos b + Z.of_nat (length trs)).
Proof.
  revert b. induction trs as [|tr trs IH]; intros b Hwf.
  - exists b. pose proof Hwf as (Hp & _). cbn [add_all length]. unfold ret.
    change (Z.of_nat 0) with 0. rewrite Z.add_0_r.
    split; [reflexivity|]. split; [exact Hwf|]. split; [reflexivity|]. split.
    + rewrite Z.mod_small; lia.
    + destruct (Z.leb_spec (buffer_size b) (pos b)); [lia|].
      rewrite orb_false_r. reflexivity.
  - simpl add_all. unfold bind, add.
    rewrite add_trajectory_run by exact Hwf.
    set (b1 := add_spec b _ _ _ _ _).
    assert (Hwf1 : well_formed b1) by (apply add_spec_well_formed; exact Hwf).
    destruct (IH b1 Hwf1) as (b' & Hrun & Hwf' & Hsize & Hpos & Hfull).
    exists b'. rewrite Hrun. destruct Hwf as (Hp & _).
    change (buffer_size b1) with (buffer_size b) in *.
    repeat split; try apply Hwf'; try assumption.
    + rewrite Hpos. subst b1. unfold add_spec. cbn [pos length].
      destruct (Z.eqb_spec (pos b + 1) (buffer_size b)) as [E|E].
      * replace (pos b + Z.of_nat (S (length trs)))
          with (Z.of_nat (length trs) + 1 * buffer_size b) by lia.
        rewrite Z.mod_add by lia. f_equal.
      * f_equal. lia.
    + rewrite Hfull. subst b1. unfold add_spec. cbn [pos full length].
      destruct (Z.eqb_spec (pos b + 1) (buffer_size b)) as [E|E].
      * destruct (Z.leb_spec (buffer_size b) (pos b + Z.of_nat (S (length trs))));
          [|lia].
        rewrite orb_true_r. reflexivity.
      * f_equal.
        destruct (Z.leb_spec (buffer_size b) (pos b + 1 + Z.of_nat (length trs)));
          destruct (Z.leb_spec (buffer_size b) (pos b + Z.of_nat (S (length trs))));
          try reflexivity; lia.
Qed.

(** X2. One [add_trajectory] on a well-formed buffer touches nothing but
    the slot at [pos] of the action, reward and done arrays and the slots at
    [pos] and [(pos + 1) mod buffer_size] of the observation array: every
    other slot, the capacity and the device are as before. *)
Theorem add_trajectory_frame
    (b : ReplayBuffer.t Obs Act Rew Done) (g : Np.RandomState)
    (o : list Obs) (a : list Act) (r : list Rew) (o' : list Obs) (d : list Done) :
  well_formed b ->
  exists b', add_trajectory o a r o' d (mkHeap b g) = (Ok tt, mkHeap b' g) /\
    buffer_size b' = buffer_size b /\
    device b' = device b /\
    forall j : nat,
      j <> Z.to_nat (pos b) ->
      actions b' !! j = actions b !! j /\
      rewards b' !! j = rewards b !! j /\
      dones b' !! j = dones b !! j /\
      (j <> Z.to_nat ((pos b + 1) mod buffer_size b) ->
       observations b' !! j = observations b !! j).
Proof.
  intros Hwf. eexists. split; [apply add_trajectory_run; exact Hwf|].
  unfold add_spec. simpl. repeat split;
    try (apply list_lookup_insert_ne; congruence).
  intros Hj. rewrite !list_lookup_insert_ne by congruence. reflexivity.
Qed.

(** X3. When the write position is no index of the observation array (too
    large, or below minus its length; in particular when the arrays are
    empty), [add_trajectory] raises [IndexError] at its first statement and
    leaves the buffer as it was. *)
Theorem add_trajectory_out_of_range
    (b : ReplayBuffer.t Obs Act Rew Done) (g : Np.RandomState)
    (o : list Obs) (a : list Act) (r : list Rew) (o' : list Obs) (d : list Done) :
  ~ (- Z.of_nat (length (observations b)) <= pos b
     < Z.of_nat (length (observations b))) ->
  add_trajectory o a r o' d (mkHeap b g) = (Raise IndexError, mkHeap b g).
Proof.
  intros Hout.
  unfold add_trajectory, bind, getattr, gets, lift. simpl.
  unfold Np.setitem, Np.index.
  destruct (Z.leb_spec 0 (pos b)); destruct (Z.ltb_spec (pos b)
    (Z.of_nat (length (observations b)))); simpl; try lia;
  destruct (Z.leb_spec (- Z.of_nat (length (observations b))) (pos b));
  destruct (Z.ltb_spec (pos b) 0); simpl; try lia; reflexivity.
Qed.

End InsertionCoverage.

(** ** Reading rows and slots *)

Section ReplayCoverage.
Import Py TypeAliases ReplayBuffer Replay.
Context {Obs Act Rew Done : Type}.

Lemma getitem_lookup {A} (a : list A) (i : Z) (x : A) :
  0 <= i < Z.of_nat (length a) ->
  a !! Z.to_nat i = Some x -> Np.getitem a i = Ok x.
Proof.
  intros Hi Hx. unfold Np.getitem. rewrite index_in_range by exact Hi.
  simpl. rewrite Hx. reflexivity.
Qed.

Lemma getitem_env0 {A} (row : list A) (x : A) :
  Np.getitem row 0 = Ok x -> env0 row = Some x.
Proof.
  unfold Np.getitem, env0. destruct row as [|y row].
  - discriminate.
  - rewrite index_in_range by (cbn [length]; lia). simpl. congruence.
Qed.

End ReplayCoverage.

(** ** Sampling: the shape of the batch, the dtype, the refusals *)

Section SamplingCoverage.
Import Py TypeAliases ReplayBuffer.
Context {Obs Act Rew Done : Type}.

Lemma resolve_dtype_any_heap (dt : dtype_arg) (h h' : Heap Obs Act Rew Done) :
  fst (resolve_dtype dt h) = fst (resolve_dtype dt h').
Proof. destruct dt; reflexivity. Qed.

Lemma mapM_length {A B} (f : A -> result B) (l : list A) (ys : list B) :
  mapM f l = Ok ys -> length ys = length l.
Proof.
  intros H. apply mapM_Forall2, Forall2_length in H. congruence.
Qed.

(** X5. A buffer of capacity 1 cannot be sampled: on it every
    [add_trajectory] ends with [full = true] and [pos = 0], its single
    observation slot holds the next observation (written over the
    observation), and [sample] with a batch size of at least 1 then ends in
    the [ValueError] of [np.random.randint(1, 1)], whatever the dtype. *)
Theorem capacity_one_is_never_sampled
    (b : ReplayBuffer.t Obs Act Rew Done) (g g' : Np.RandomState)
    (o : list Obs) (a : list Act) (r : list Rew) (o' : list Obs) (d : list Done)
    (n : Z) (dt : dtype_arg) (m : TrajectoryType) :
  well_formed b ->
  buffer_size b = 1 ->
  1 <= n ->
  fst (resolve_dtype dt (mkHeap b g)) = Ok m ->
  exists b',
    add_trajectory o a r o' d (mkHeap b g) = (Ok tt, mkHeap b' g) /\
    full b' = true /\ pos b' = 0 /\
    observations b' = [o'] /\
    sample n dt (mkHeap b' g')
      = (Raise (ValueError "low >= high"), mkHeap b' g').
Proof.
  intros Hwf Hc Hn Hm.
  pose proof Hwf as (Hp & Ho & _).
  assert (Hp0 : pos b = 0) by lia.
  exists (add_spec b o a r o' d).
  split; [apply add_trajectory_run; exact Hwf|].
  unfold add_spec. rewrite Hp0, Hc. cbn [full pos observations].
  split; [reflexivity|]. split; [reflexivity|]. split.
  - destruct (observations b) as [|x [|y l]]; simpl in Ho; try lia. reflexivity.
  - unfold sample, bind.
    rewrite resolve_dtype_pure, (resolve_dtype_any_heap dt _ (mkHeap b g)), Hm.
    rewrite draw_batch_inds_run. cbn [full buffer_size].
    rewrite randint_empty_range by lia. reflexivity.
Qed.

(** X6. When [sample] returns, the batch size was not negative and each of
    the five arrays of the batch has exactly [batch_size] entries. *)
Theorem sample_batch_shape
    (h h' : Heap Obs Act Rew Done) (n : Z) (dt : dtype_arg)
    (batch : Trajectories Obs Act Rew Done) :
  sample n dt h = (Ok batch, h') ->
  0 <= n /\
  length (data (TypeAliases.observations batch)) = Z.to_nat n /\
  length (data (TypeAliases.actions batch)) = Z.to_nat n /\
  length (data (TypeAliases.rewards batch)) = Z.to_nat n /\
  length (data (next_observations batch)) = Z.to_nat n /\
  length (data (TypeAliases.dones batch)) = Z.to_nat n.
Proof.
  destruct h as [b g]. intros Hs.
  destruct (sample_inv _ _ _ _ _ _ Hs) as (m & inds & g' & _ & Hd & Hg).
  assert (Hlen : 0 <= n /\ length inds = Z.to_nat n).
  { rewrite draw_batch_inds_run in Hd.
    assert (Hsize : forall lo hi l g1,
               Np.randint lo hi n g = (Ok l, g1) -> 0 <= n).
    { intros lo hi l g1. unfold Np.randint.
      destruct (Z.eqb_spec n 0); [lia|].
      destruct (hi <=? lo); [discriminate|].
      destruct (Z.ltb_spec n 0); [discriminate | lia]. }
    destruct (full b).
    - destruct (Np.randint 1 (buffer_size b) n g) as [[l|e] g1] eqn:Hr;
        [|discriminate].
      injection Hd as <- _. split; [eapply Hsize; exact Hr|].
      apply randint_range in Hr. destruct Hr as [_ Hr].
      unfold Np.mod_scalar, Np.add_scalar. rewrite !length_map. exact Hr.
    - destruct (Np.randint 0 (pos b) n g) as [[l|e] g1] eqn:Hr; [|discriminate].
      injection Hd as <- _. split; [eapply Hsize; exact Hr|].
      apply randint_range in Hr. apply Hr. }
  destruct Hlen as [Hn Hlen]. split; [exact Hn|].
  apply gather_inv in Hg. destruct Hg as (_ & Ho & Ha & Hr & Ho' & Hdn).
  unfold Np.take_env0, Np.take in *.
  apply mapM_length in Ho, Ha, Hr, Ho', Hdn.
  unfold Np.mod_scalar, Np.add_scalar in Ho'. rewrite !length_map in Ho'.
  repeat split; congruence.
Qed.

(** X7. The places of a batch line up: the action, the reward row and the
    done row at place [k] are read from the same slot as the observation at
    place [k], the slot of the [k]-th drawn index (environment 0 for
    observation and action, all environments for reward and done). *)
Theorem sample_entries_share_their_slot
    (b : ReplayBuffer.t Obs Act Rew Done) (g : Np.RandomState) (n : Z)
    (dt : dtype_arg) (batch : Trajectories Obs Act Rew Done)
    (h' : Heap Obs Act Rew Done) :
  sample n dt (mkHeap b g) = (Ok batch, h') ->
  exists inds g',
    draw_batch_inds n (mkHeap b g) = (Ok inds, mkHeap b g') /\
    forall (k : nat) (i : Z),
      inds !! k = Some i ->
      exists o a r d,
        data (TypeAliases.observations batch) !! k = Some o /\
        data (TypeAliases.actions batch) !! k = Some a /\
        data (TypeAliases.rewards batch) !! k = Some r /\
        data (TypeAliases.dones batch) !! k = Some d /\
        stored_observation b i = Ok o /\
        bind_result (Np.getitem (actions b) i) (fun row => Np.getitem row 0) = Ok a /\
        Np.getitem (rewards b) i = Ok r /\
        Np.getitem (dones b) i = Ok d.
Proof.
  intros Hs.
  destruct (sample_inv _ _ _ _ _ _ Hs) as (m & inds & g' & _ & Hd & Hg).
  exists inds, g'. split; [exact Hd|].
  apply gather_inv in Hg. destruct Hg as (_ & Ho & Ha & Hr & _ & Hdn).
  apply mapM_Forall2 in Ho, Ha, Hr, Hdn.
  intros k i Hk.
  destruct (Forall2_lookup_l _ _ _ _ _ Ho Hk) as (o & Hko & Hgo).
  destruct (Forall2_lookup_l _ _ _ _ _ Ha Hk) as (a & Hka & Hga).
  destruct (Forall2_lookup_l _ _ _ _ _ Hr Hk) as (r & Hkr & Hgr).
  destruct (Forall2_lookup_l _ _ _ _ _ Hdn Hk) as (d & Hkd & Hgd).
  exists o, a, r, d. repeat split; assumption.
Qed.


Lemma lower_ascii_idempotent (c : ascii) :
  lower_ascii (lower_ascii c) = lower_ascii c.
Proof. destruct c as [[] [] [] [] [] [] [] []]; reflexivity. Qed.

Lemma lower_idempotent (s : string) : lower (lower s) = lower s.
Proof.
  induction s as [|c s IH]; simpl; [reflexivity|].
  rewrite lower_ascii_idempotent, IH. reflexivity.
Qed.

(** X8. The dtype decides the container of the batch and nothing else:
    from the same buffer and generator state, [sample] with the member
    [NUMPY] and with the member [TORCH] raise the same exception or return
    batches with the same data, the first as five NumPy arrays, the second
    as five tensors on the buffer's device; the state left behind is the
    same. *)
Theorem dtype_decides_container_only (h : Heap Obs Act Rew Done) (n : Z) :
  match sample n (dtype_member NUMPY) h, sample n (dtype_member TORCH) h with
  | (Ok bn, hn), (Ok bt, ht) =>
      hn = ht /\
      bn = mkTrajectories
             (ndarray (data (TypeAliases.observations bn)))
             (ndarray (data (TypeAliases.actions bn)))
             (ndarray (data (TypeAliases.rewards bn)))
             (ndarray (data (next_observations bn)))
             (ndarray (data (TypeAliases.dones bn))) /\
      bt = mkTrajectories
             (tensor (device (self h)) (data (TypeAliases.observations bn)))
             (tensor (device (self h)) (data (TypeAliases.actions bn)))
             (tensor (device (self h)) (data (TypeAliases.rewards bn)))
             (tensor (device (self h)) (data (next_observations bn)))
             (tensor (device (self h)) (data (TypeAliases.dones bn)))
  | (Raise en, hn), (Raise et, ht) => en = et /\ hn = ht
  | _, _ => False
  end.
Proof.
  destruct h as [b g]. unfold sample, bind, resolve_dtype, ret.
  pose proof (draw_batch_inds_self b g n) as Hself.
  destruct (draw_batch_inds n (mkHeap b g)) as [[inds|e] [b1 g1]];
    simpl in Hself; subst b1; [|split; reflexivity].
  unfold gather, bind, getattr, gets, lift, ret. cbn [self device].
  destruct (Np.take_env0 (observations b) inds); [|split; reflexivity].
  destruct (Np.take_env0 (actions b) inds); [|split; reflexivity].
  destruct (Np.take (rewards b) inds); [|split; reflexivity].
  destruct (Np.take_env0 (observations b) _); [|split; reflexivity].
  destruct (Np.take (dones b) inds); [|split; reflexivity].
  repeat split.
Qed.

(** X9. A dtype given as a string is lower-cased and resolved before
    anything else happens: the letter case of the string does not matter; a
    string the enum refuses makes [sample] raise that refusal with buffer and
    generator untouched; and a string the enum accepts behaves as the member
    it names. *)
Theorem dtype_string_is_resolved_first
    (h : Heap Obs Act Rew Done) (n : Z) (s : string) :
  sample n (dtype_str s) h = sample n (dtype_str (lower s)) h /\
  (forall e, TrajectoryType_of_value (lower s) = Raise e ->
             sample n (dtype_str s) h = (Raise e, h)) /\
  (forall m, TrajectoryType_of_value (lower s) = Ok m ->
             sample n (dtype_str s) h = sample n (dtype_member m) h).
Proof.
  split; [|split].
  - unfold sample, bind, resolve_dtype, lift. rewrite lower_idempotent.
    reflexivity.
  - intros e He. unfold sample, bind, resolve_dtype, lift. rewrite He.
    reflexivity.
  - intros m Hm. unfold sample, bind, resolve_dtype, lift, ret. rewrite Hm.
    reflexivity.
Qed.

(** X10. A negative batch size is refused: with a valid dtype [sample]
    ends in a [ValueError] of [np.random.randint] (for the negative size, or
    for an empty range when the buffer holds too little), and buffer and
    generator are untouched. *)
Theorem negative_batch_size_is_refused
    (b : ReplayBuffer.t Obs Act Rew Done) (g : Np.RandomState) (n : Z)
    (dt : dtype_arg) (m : TrajectoryType) :
  n < 0 ->
  fst (resolve_dtype dt (mkHeap b g)) = Ok m ->
  exists msg, sample n dt (mkHeap b g) = (Raise (ValueError msg), mkHeap b g).
Proof.
  intros Hn Hm. unfold sample, bind.
  rewrite resolve_dtype_pure, Hm, draw_batch_inds_run.
  assert (Hr : forall lo hi,
             exists msg, Np.randint lo hi n g = (Raise (ValueError msg), g)).
  { intros lo hi. unfold Np.randint.
    destruct (Z.eqb_spec n 0); [lia|].
    destruct (hi <=? lo); [eauto|].
    destruct (Z.ltb_spec n 0); [eauto | lia]. }
  destruct (full b).
  - destruct (Hr 1 (buffer_size b)) as [msg ->]. eauto.
  - destruct (Hr 0 (pos b)) as [msg ->]. eauto.
Qed.

End SamplingCoverage.

(** ** The updater: what the iterator is good for, and the refusals *)

Section UpdaterCoverage.
Import Py Updater.
Context {Param Model Tensor : Type}.
Context (model_parameters : Model -> list Param)
        (forward : Model -> Tensor -> Tensor -> Tensor)
        (item : Tensor -> float).

(** X11. With [max_grad > 0], [run_optimizer] clips the parameters that
    its iterator still yields and uses the iterator up: run a second time
    with the same iterator, it clips no parameter. Both runs zero the
    gradients, backpropagate and step on the optimizer's own parameters. *)
Theorem run_optimizer_uses_up_its_iterator
    (self : DeepRegression Tensor) (optimizer : Optimizer Param)
    (loss1 loss2 : Tensor) (it : iterator) (ps : list Param)
    (w : World Param Tensor) :
  PrimFloat.ltb 0 (max_grad self) = true ->
  iterators w !! it = Some ps ->
  bind (run_optimizer self optimizer loss1 it)
       (fun _ => run_optimizer self optimizer loss2 it) w
  = (Ok tt,
     mkWorld (<[it := []]> (iterators w))
       (trace w
        ++ [ZeroGrad (param_groups optimizer); Backward loss1;
            ClipGradNorm ps (max_grad self);
            Step (param_groups optimizer) (lr optimizer)]
        ++ [ZeroGrad (param_groups optimizer); Backward loss2;
            ClipGradNorm [] (max_grad self);
            Step (param_groups optimizer) (lr optimizer)])).
Proof.
  intros Hmg Hit. unfold bind.
  rewrite !run_optimizer_trace, Hmg. cbn [iterators trace].
  rewrite Hit. cbn [default from_option id].
  rewrite list_lookup_insert_eq by (apply lookup_lt_Some in Hit; exact Hit).
  rewrite list_insert_insert_eq. cbn [default from_option id].
  rewrite <- !app_assoc. reflexivity.
Qed.

(** X12. With [max_grad] at its default 0, or negative, or not a number,
    [__call__] on a model that has parameters asks torch for exactly three
    things: to zero the gradients of all the model's parameters, to
    backpropagate the loss of the model's prediction against the targets,
    and to step on all the parameters with the learning rate given; it
    returns the scalar loss. *)
Theorem call_without_clipping
    (self : DeepRegression Tensor) (model : Model)
    (observations actions targets : Tensor) (learning_rate : float)
    (w : World Param Tensor) :
  model_parameters model <> [] ->
  PrimFloat.ltb 0 (max_grad self) = false ->
  let l := loss_class self (forward model observations actions) targets in
  exists w',
    __call__ model_parameters forward item self model observations actions
      targets learning_rate w = (Ok (mkUpdaterLog (item l)), w') /\
    trace w' = trace w ++ [ZeroGrad (model_parameters model); Backward l;
                           Step (model_parameters model) learning_rate].
Proof.
  intros Hne Hmg l.
  pose proof (call_trace model_parameters forward item self model observations
                actions targets learning_rate w Hne) as H.
  cbv zeta in H. rewrite Hmg in H.
  eexists. split; [exact H|]. reflexivity.
Qed.

(** X13. On a model without parameters [__call__] raises the [ValueError]
    of the optimizer's constructor before torch is asked anything: no
    gradient is zeroed, nothing is backpropagated, no step is taken. *)
Theorem call_on_model_without_parameters
    (self : DeepRegression Tensor) (model : Model)
    (observations actions targets : Tensor) (learning_rate : float)
    (w : World Param Tensor) :
  model_parameters model = [] ->
  exists w',
    __call__ model_parameters forward item self model observations actions
      targets learning_rate w
    = (Raise (ValueError "optimizer got an empty parameter list"), w') /\
    trace w' = trace w.
Proof.
  intros Hempty.
  cbv [__call__ bind parameters optimizer_class drain ret raise].
  cbn [iterators trace].
  rewrite list_lookup_middle by reflexivity. cbn [default from_option id].
  rewrite Hempty. eexists. split; reflexivity.
Qed.

End UpdaterCoverage.

(** ** The agent: what [_fit] does to the buffer, and when it refuses *)

Section FitCoverage.
Import Py TypeAliases DQN.
Context {Obs Act R Params : Type} (rI : R) (radd rmul rsub : R -> R -> R).
Context (max_q : Params -> Obs -> R)
        (regression_step : Params -> list Obs -> list R -> list Act -> Params * float)
        (np_mean : list float -> float).

Lemma critic_epoch_keeps_buffer (batch_size : Z) (a : DQN.t Obs Act R Params) :
  ReplayBuffer.self (buffer (snd (critic_epoch rI radd rmul rsub max_q
                                    regression_step batch_size a)))
  = ReplayBuffer.self (buffer a).
Proof.
  revert a. unfold critic_epoch.
  apply (bind_keeps (fun s : DQN.t Obs Act R Params =>
                       ReplayBuffer.self (buffer s))).
  { intros s. unfold on_buffer, zoom, ReplayBuffer.sample_default.
    pose proof (read_only_sample (Obs:=Obs) (Act:=Act) (Rew:=R) (Done:=R)
                  batch_size (dtype_str "numpy") (buffer s)) as H.
    destruct (ReplayBuffer.sample _ _ (buffer s)). exact H. }
  intros trajectories.
  apply (bind_keeps (fun s : DQN.t Obs Act R Params =>
                       ReplayBuffer.self (buffer s))); [reflexivity|].
  intros m.
  apply (bind_keeps (fun s : DQN.t Obs Act R Params =>
                       ReplayBuffer.self (buffer s))); [reflexivity|].
  intros target_q_values.
  apply (bind_keeps (fun s : DQN.t Obs Act R Params =>
                       ReplayBuffer.self (buffer s))); [|reflexivity].
  intros s. unfold on_model, zoom. destruct (updater _ _ _ _ (model s)).
  reflexivity.
Qed.

(** X14. Training reads the replay buffer and never writes it: after
    [_fit], whether it returns or raises and whatever the number of epochs,
    the buffer object (position, [full] flag and the four arrays) is the one
    before the call. *)
Theorem fit_leaves_buffer_unchanged
    (batch_size actor_epochs critic_epochs : Z) (a : DQN.t Obs Act R Params) :
  ReplayBuffer.self (buffer (snd (_fit rI radd rmul rsub max_q regression_step
                                    np_mean batch_size actor_epochs
                                    critic_epochs a)))
  = ReplayBuffer.self (buffer a).
Proof.
  revert a. unfold _fit.
  apply (bind_keeps (fun s : DQN.t Obs Act R Params =>
                       ReplayBuffer.self (buffer s))).
  { intros s. destruct (critic_epochs <? 0); reflexivity. }
  intros _.
  apply (bind_keeps (fun s : DQN.t Obs Act R Params =>
                       ReplayBuffer.self (buffer s))).
  { induction (Z.to_nat critic_epochs) as [|k IH]; [reflexivity|].
    cbn [critic_epochs_loop].
    apply (bind_keeps (fun s : DQN.t Obs Act R Params =>
                         ReplayBuffer.self (buffer s)));
      [apply critic_epoch_keeps_buffer|].
    intros l.
    apply (bind_keeps (fun s : DQN.t Obs Act R Params =>
                         ReplayBuffer.self (buffer s)));
      [exact IH | reflexivity]. }
  intros losses.
  apply (bind_keeps (fun s : DQN.t Obs Act R Params =>
                       ReplayBuffer.self (buffer s))); [|reflexivity].
  intros s. reflexivity.
Qed.

(** X15. [_fit] refuses a negative number of critic epochs at its first
    statement, before it samples or updates: it raises [ValueError] and the
    agent (buffer, generator, both critics) is as before. *)
Theorem fit_refuses_negative_epochs
    (batch_size actor_epochs critic_epochs : Z) (a : DQN.t Obs Act R Params) :
  critic_epochs < 0 ->
  _fit rI radd rmul rsub max_q regression_step np_mean
       batch_size actor_epochs critic_epochs a
  = (Raise (ValueError "negative dimensions are not allowed"), a).
Proof.
  intros Hneg. unfold _fit, bind, raise.
  destruct (Z.ltb_spec critic_epochs 0); [reflexivity | lia].
Qed.

(** X16. On a buffer nothing was written to, [_fit] with at least one
    critic epoch and a batch size of at least 1 ends in the [ValueError] of
    the first [sample]: no update is made, the target critic is not
    synchronised, and the agent is as before. *)
Theorem fit_on_unwritten_buffer_raises
    (batch_size actor_epochs critic_epochs : Z) (a : DQN.t Obs Act R Params) :
  ReplayBuffer.full (ReplayBuffer.self (buffer a)) = false ->
  ReplayBuffer.pos (ReplayBuffer.self (buffer a)) = 0 ->
  1 <= batch_size ->
  1 <= critic_epochs ->
  _fit rI radd rmul rsub max_q regression_step np_mean
       batch_size actor_epochs critic_epochs a
  = (Raise (ValueError "low >= high"), a).
Proof.
  intros Hfull Hpos Hbs Hce. destruct a as [[b g] m]. cbn [buffer ReplayBuffer.self] in *.
  unfold _fit, bind at 1.
  destruct (Z.ltb_spec critic_epochs 0); [lia|]. cbn [ret].
  destruct (Z.to_nat critic_epochs) as [|k] eqn:Hk; [lia|].
  cbn [critic_epochs_loop]. unfold bind, critic_epoch, bind, on_buffer, zoom.
  cbn [buffer model].
  unfold ReplayBuffer.sample_default, ReplayBuffer.sample, bind.
  cbn [ReplayBuffer.resolve_dtype lift lower TypeAliases.TrajectoryType_of_value].
  change (TrajectoryType_of_value (lower "numpy")) with (Ok NUMPY).
  rewrite draw_batch_inds_run, Hfull, Hpos.
  rewrite randint_empty_range by lia. reflexivity.
Qed.

End FitCoverage.

(** ** The ring: what the buffer holds after any number of insertions *)

Section RingCoverage.
Import Py TypeAliases ReplayBuffer Replay.
Context {Obs Act Rew Done : Type}.

Lemma mod_distinct (a b c : Z) : 0 < b - a < c -> a mod c <> b mod c.
Proof.
  intros H E.
  assert (Hz : (b - a) mod c = 0).
  { rewrite Zminus_mod, E, Z.sub_diag. apply Z.mod_0_l. lia. }
  rewrite Z.mod_small in Hz by lia. lia.
Qed.

Lemma mod_succ (n c : Z) :
  0 <= n -> 0 < c ->
  (n + 1) mod c = if n mod c + 1 =? c then 0 else n mod c + 1.
Proof.
  intros Hn Hc. pose proof (Z.mod_pos_bound n c Hc) as Hb.
  pose proof (Z.div_mod n c ltac:(lia)) as Hdm.
  destruct (Z.eqb_spec (n mod c + 1) c) as [E|E].
  - symmetry. apply Z.mod_unique with (q := n / c + 1); lia.
  - symmetry. apply Z.mod_unique with (q := n / c); lia.
Qed.

Lemma add_all_snoc (trs : list (Transition Obs Act Rew Done)) tr :
  forall h : Heap Obs Act Rew Done,
    add_all (trs ++ [tr]) h = bind (add_all trs) (fun _ => add tr) h.
Proof.
  induction trs as [|tr0 trs IH]; intros h.
  - cbn [app add_all]. unfold bind, ret.
    destruct (add tr h) as [[[]|e] h1]; reflexivity.
  - cbn [app add_all]. unfold bind in *.
    destruct (add tr0 h) as [[[]|e] h1]; [apply IH | reflexivity].
Qed.

(** An empty, well-formed buffer holds no transition. *)
Lemma holds_nothing (b : ReplayBuffer.t Obs Act Rew Done) :
  well_formed b -> pos b = 0 -> full b = false -> holds b [].
Proof.
  intros Hwf Hpos Hfull. pose proof Hwf as (Hp & _).
  unfold holds. cbn [length]. change (Z.of_nat 0) with 0.
  split; [exact Hwf|]. split; [rewrite Z.mod_0_l by lia; exact Hpos|].
  split; [destruct (Z.leb_spec (buffer_size b) 0); [lia | exact Hfull]|].
  split; [intros t tr H; destruct t; discriminate H | intros tr H; discriminate H].
Qed.

(** One more insertion: the buffer then holds one more transition. *)
Lemma holds_add (b : ReplayBuffer.t Obs Act Rew Done)
    (trs : list (Transition Obs Act Rew Done)) (tr : Transition Obs Act Rew Done) :
  holds b trs ->
  holds (add_spec b (tr_observation tr) (tr_action tr) (tr_reward tr)
           (tr_next_observation tr) (tr_done tr))
        (trs ++ [tr]).
Proof.
  intros (Hwf & Hpos & Hfull & Hlive & Hlast).
  pose proof Hwf as (Hp & Ho & Ha & Hr & Hd).
  set (n := Z.of_nat (length trs)) in *.
  set (c := buffer_size b) in *.
  assert (Hn : 0 <= n) by (subst n; lia).
  assert (Hc : 0 < c) by lia.
  assert (Hn1 : Z.of_nat (length (trs ++ [tr])) = n + 1)
    by (rewrite length_app; cbn [length]; subst n; lia).
  pose proof (mod_succ n c Hn Hc) as Hsucc.
  pose proof (Z.mod_pos_bound (n + 1) c Hc) as Hb1.
  unfold holds. rewrite Hn1.
  split; [apply add_spec_well_formed; exact Hwf|].
  unfold add_spec. cbn [buffer_size pos full actions rewards dones observations].
  fold c. rewrite Hpos.
  split; [symmetry; exact Hsucc|].
  split.
  { destruct (Z.eqb_spec (n mod c + 1) c) as [E|E].
    - pose proof (Z.mod_le n c Hn Hc).
      destruct (Z.leb_spec c (n + 1)); [reflexivity | lia].
    - rewrite Hfull.
      destruct (Z.leb_spec c n); destruct (Z.leb_spec c (n + 1));
        try reflexivity; try lia.
      assert (n = c - 1) by lia. subst n.
      rewrite Z.mod_small in E by lia. lia. }
  assert (Hnext : (n mod c + 1) mod c = (n + 1) mod c).
  { rewrite Hsucc. destruct (Z.eqb_spec (n mod c + 1) c) as [E|E].
    - rewrite E. apply Z.mod_same. lia.
    - apply Z.mod_small. pose proof (Z.mod_pos_bound n c Hc). lia. }
  rewrite Hnext.
  split.
  - intros t tr' Ht Hlv. cbv zeta.
    pose proof (Z.mod_pos_bound (Z.of_nat t) c Hc) as Hbt.
    pose proof (Z.mod_pos_bound n c Hc) as Hbn.
    destruct (Nat.eq_dec t (length trs)) as [->|Hne].
    + (* the transition just inserted *)
      rewrite list_lookup_middle in Ht by reflexivity. injection Ht as <-.
      fold n.
      assert (Hc2 : 2 <= c) by lia.
      repeat split; try (apply list_lookup_insert_eq; lia).
      rewrite list_lookup_insert_ne.
      * apply list_lookup_insert_eq. lia.
      * intros E. apply Z2Nat.inj in E; [|lia|lia].
        apply (mod_distinct n (n + 1) c); [lia | congruence].
    + (* an older one *)
      assert (Htlt : (t < length trs)%nat).
      { apply lookup_lt_Some in Ht. rewrite length_app in Ht. cbn [length] in Ht.
        lia. }
      rewrite lookup_app_l in Ht by exact Htlt.
      destruct (Hlive t tr' Ht) as (L1 & L2 & L3 & L4); [fold n c; lia|].
      fold c in L1, L2, L3, L4.
      assert (Hd1 : Z.to_nat (Z.of_nat t mod c) <> Z.to_nat (n mod c)).
      { intros E. apply Z2Nat.inj in E; [|lia|lia].
        apply (mod_distinct (Z.of_nat t) n c); [subst n; lia | exact E]. }
      assert (Hd2 : Z.to_nat (Z.of_nat t mod c) <> Z.to_nat ((n + 1) mod c)).
      { intros E. apply Z2Nat.inj in E; [|lia|lia].
        apply (mod_distinct (Z.of_nat t) (n + 1) c); [subst n; lia | exact E]. }
      rewrite !list_lookup_insert_ne by congruence.
      repeat split; assumption.
  - intros tr' Hl. rewrite last_snoc in Hl. injection Hl as <-.
    apply list_lookup_insert_eq. rewrite length_insert. lia.
Qed.

(** Insertions into an empty buffer: they do not raise, and the buffer
    holds what was inserted. *)
Lemma add_all_holds (trs : list (Transition Obs Act Rew Done)) :
  forall (b : ReplayBuffer.t Obs Act Rew Done) g,
    holds b [] ->
    exists b', add_all trs (mkHeap b g) = (Ok tt, mkHeap b' g) /\
               buffer_size b' = buffer_size b /\
               holds b' trs.
Proof.
  induction trs as [|tr trs IH] using rev_ind; intros b g H0.
  - exists b. split; [reflexivity|]. split; [reflexivity | exact H0].
  - destruct (IH b g H0) as (b1 & Hrun & Hsize & Hholds).
    rewrite add_all_snoc. unfold bind. rewrite Hrun. unfold add.
    rewrite add_trajectory_run by apply Hholds.
    eexists. split; [reflexivity|]. split; [exact Hsize|].
    apply holds_add. exact Hholds.
Qed.


(** X4. Insert any number of transitions into an empty well-formed buffer
    (with wrap-around once the capacity is passed), then sample: the
    insertions do not raise, and whenever [sample] returns, every place of
    the batch replays one of the last [buffer_size - 1] transitions
    inserted, namely the one whose number is congruent to the index drawn
    for that place. Observation, action, reward and done are that
    transition's; the next observation is read from the following slot and
    is the observation of the transition inserted next, or the transition's
    own next observation when it is the last one inserted. A transition that
    has been overwritten, or whose observation slot has, is never
    replayed. *)
Theorem sampled_entries_replay_recent_insertions
    (b : ReplayBuffer.t Obs Act Rew Done) (g : Np.RandomState)
    (trs : list (Transition Obs Act Rew Done)) :
  well_formed b ->
  pos b = 0 ->
  full b = false ->
  exists b',
    add_all trs (mkHeap b g) = (Ok tt, mkHeap b' g) /\
    forall n dt g' batch h',
      sample n dt (mkHeap b' g') = (Ok batch, h') ->
      exists inds g'',
        draw_batch_inds n (mkHeap b' g') = (Ok inds, mkHeap b' g'') /\
        forall (k : nat) (i : Z),
          inds !! k = Some i ->
          exists t : Z,
            Z.of_nat (length trs) - buffer_size b < t < Z.of_nat (length trs) /\
            t mod buffer_size b = i /\
            replays trs batch k t.
Proof.
  intros Hwf Hpos0 Hfull0.
  destruct (add_all_holds trs b g (holds_nothing b Hwf Hpos0 Hfull0))
    as (b' & Hrun & Hsize & Hh).
  exists b'. split; [exact Hrun|].
  destruct Hh as (Hwf' & Hpos' & Hfull' & Hlive & Hlast).
  rewrite Hsize in Hpos', Hfull', Hlive, Hlast.
  pose proof Hwf' as (Hp' & Hlo & Hla & Hlr & Hld).
  rewrite Hsize in Hp', Hlo, Hla, Hlr, Hld.
  set (N := Z.of_nat (length trs)) in *.
  set (c := buffer_size b) in *.
  assert (Hc : 0 < c) by lia.
  intros n dt g' batch h' Hs.
  destruct (sample_inv _ _ _ _ _ _ Hs) as (m & inds & g'' & _ & Hd & Hg).
  exists inds, g''. split; [exact Hd|].
  (* every index drawn is the slot of a recent transition *)
  assert (Hin : Forall (fun i => exists t, 0 <= t /\ N - c < t < N /\ t mod c = i)
                       inds).
  { rewrite draw_batch_inds_run, Hsize in Hd. fold c in Hd.
    destruct (full b') eqn:Hf.
    - symmetry in Hfull'. apply Z.leb_le in Hfull'.
      destruct (Np.randint 1 c n g') as [[l|e] g1] eqn:Hr; [|discriminate].
      injection Hd as <- _. apply randint_range in Hr. destruct Hr as [Hr _].
      unfold Np.mod_scalar, Np.add_scalar. rewrite map_map.
      apply Forall_forall. intros i Hi.
      apply list_elem_of_In, in_map_iff in Hi. destruct Hi as (r & <- & Hrin).
      rewrite Forall_forall in Hr. specialize (Hr r (proj2 (list_elem_of_In _ _) Hrin)).
      destruct (Z.eqb_spec c 0); [lia|].
      exists (N + r - c). split; [lia|]. split; [lia|].
      rewrite Hpos', Z.add_mod_idemp_r by lia.
      replace (N + r - c) with (r + N + (-1) * c) by lia.
      apply Z.mod_add. lia.
    - symmetry in Hfull'. apply Z.leb_gt in Hfull'.
      rewrite Hpos', Z.mod_small in Hd by lia.
      destruct (Np.randint 0 N n g') as [[l|e] g1] eqn:Hr; [|discriminate].
      injection Hd as <- _. apply randint_range in Hr. destruct Hr as [Hr _].
      eapply Forall_impl; [exact Hr|]. intros i Hi. cbv beta in Hi.
      exists i. split; [lia|]. split; [lia|]. apply Z.mod_small. lia. }
  apply gather_inv in Hg.
  destruct Hg as (_ & Ho & Ha & Hr & Ho' & Hdn).
  rewrite <- (map_id inds) in Ho, Ha. apply take_env0_mapped in Ho, Ha.
  unfold Np.mod_scalar, Np.add_scalar in Ho'. rewrite map_map in Ho'.
  apply take_env0_mapped in Ho'.
  apply mapM_Forall2 in Hr, Hdn.
  rewrite Hsize in Ho'. fold c in Ho'.
  intros k i Hk.
  assert (Ht : exists t, 0 <= t /\ N - c < t < N /\ t mod c = i).
  { rewrite Forall_forall in Hin. apply Hin. apply list_elem_of_lookup. eauto. }
  destruct Ht as (t & Ht0 & HtN & Hti).
  exists t. split; [exact HtN|]. split; [exact Hti|].
  pose proof (Z.mod_pos_bound t c Hc) as Hib. rewrite Hti in Hib.
  destruct (lookup_lt_is_Some_2 trs (Z.to_nat t)) as [tr Htr]; [subst N; lia|].
  destruct (Hlive _ _ Htr) as (C1 & C2 & C3 & C4); [lia|].
  rewrite Z2Nat.id, Hti in C1, C2, C3, C4 by lia.
  split; [exact Ht0|]. exists tr. split; [exact Htr|].
  destruct (Forall2_lookup_l _ _ _ _ _ Ho Hk) as (o & Hko & Hgo).
  destruct (Forall2_lookup_l _ _ _ _ _ Ha Hk) as (a & Hka & Hga).
  destruct (Forall2_lookup_l _ _ _ _ _ Hr Hk) as (r & Hkr & Hgr).
  destruct (Forall2_lookup_l _ _ _ _ _ Hdn Hk) as (d & Hkd & Hgd).
  destruct (Forall2_lookup_l _ _ _ _ _ Ho' Hk) as (o' & Hko' & Hgo').
  simpl in Hgo, Hga, Hgo'.
  rewrite (getitem_lookup (observations b') i _ ltac:(lia) C4) in Hgo.
  simpl in Hgo.
  rewrite (getitem_lookup (actions b') i _ ltac:(lia) C1) in Hga. simpl in Hga.
  rewrite (getitem_lookup (rewards b') i _ ltac:(lia) C2) in Hgr.
  rewrite (getitem_lookup (dones b') i _ ltac:(lia) C3) in Hgd.
  destruct (Z.eqb_spec c 0); [lia|].
  assert (Hnext : (i + 1) mod c = (t + 1) mod c)
    by (rewrite <- Hti; apply Z.add_mod_idemp_l; lia).
  pose proof (Z.mod_pos_bound (t + 1) c Hc) as Hnb.
  assert (C5 : observations b' !! Z.to_nat ((i + 1) mod c)
               = Some (match trs !! S (Z.to_nat t) with
                       | Some tr' => tr_observation tr'
                       | None => tr_next_observation tr
                       end)).
  { rewrite Hnext.
    destruct (trs !! S (Z.to_nat t)) as [tr'|] eqn:Htr'.
    - destruct (Hlive _ _ Htr') as (_ & _ & _ & L4); [lia|].
      replace (Z.of_nat (S (Z.to_nat t))) with (t + 1) in L4 by lia. exact L4.
    - apply lookup_ge_None in Htr'.
      assert (Ht1 : t + 1 = N) by (subst N; lia).
      rewrite Ht1. apply Hlast. rewrite last_lookup.
      replace (pred (length trs)) with (Z.to_nat t) by (subst N; lia).
      exact Htr. }
  rewrite (getitem_lookup (observations b') ((i + 1) mod c) _ ltac:(lia) C5) in Hgo'.
  simpl in Hgo'.
  repeat split.
  - exists o. split; [exact Hko | apply getitem_env0; exact Hgo].
  - exists a. split; [exact Hka | apply getitem_env0; exact Hga].
  - congruence.
  - congruence.
  - exists o'. split; [exact Hko' | apply getitem_env0; exact Hgo'].
Qed.

End RingCoverage.

(** ** The further properties at work in the scenarios *)

Lemma insertions_advance_ring_witness :
  ReplayBuffer.well_formed Scenario.fresh /\
  exists b',
    ReplayBuffer.add_all EdgeScenario.four
      (ReplayBuffer.mkHeap Scenario.fresh Scenario.gen)
    = (Py.Ok tt, ReplayBuffer.mkHeap b' Scenario.gen) /\
    ReplayBuffer.pos b' = 1 /\ ReplayBuffer.full b' = true.
Proof.
  assert (Hwf : ReplayBuffer.well_formed Scenario.fresh)
    by (unfold ReplayBuffer.well_formed; simpl; lia).
  split; [exact Hwf|].
  destruct (insertions_advance_ring EdgeScenario.four Scenario.fresh
              Scenario.gen Hwf) as (b' & Hrun & _ & _ & Hpos & Hfull).
  exists b'. split; [exact Hrun|]. split; [exact Hpos | exact Hfull].
Defined.

Lemma add_trajectory_frame_witness :
  ReplayBuffer.well_formed Scenario.partly_filled /\
  exists b',
    ReplayBuffer.add_trajectory [2] [0] [30] [3] [0]
      (ReplayBuffer.mkHeap Scenario.partly_filled Scenario.gen)
    = (Py.Ok tt, ReplayBuffer.mkHeap b' Scenario.gen) /\
    ReplayBuffer.rewards b' !! 0%nat = Some [10] /\
    ReplayBuffer.observations b' !! 1%nat = Some [1].
Proof.
  assert (Hwf : ReplayBuffer.well_formed Scenario.partly_filled)
    by (unfold ReplayBuffer.well_formed; simpl; lia).
  split; [exact Hwf|].
  destruct (add_trajectory_frame Scenario.partly_filled Scenario.gen
              [2] [0] [30] [3] [0] Hwf) as (b' & Hrun & _ & _ & Hframe).
  exists b'. split; [exact Hrun|].
  destruct (Hframe 0%nat) as (_ & Hr & _);
    [intros E; vm_compute in E; discriminate E|].
  destruct (Hframe 1%nat) as (_ & _ & _ & Ho);
    [intros E; vm_compute in E; discriminate E|].
  split; [rewrite Hr; reflexivity|].
  rewrite Ho by (intros E; vm_compute in E; discriminate E). reflexivity.
Defined.

Lemma add_trajectory_out_of_range_witness :
  ReplayBuffer.add_trajectory [0] [0] [10] [1] [0]
    (ReplayBuffer.mkHeap EdgeScenario.no_slot Scenario.gen)
  = (Py.Raise Py.IndexError,
     ReplayBuffer.mkHeap EdgeScenario.no_slot Scenario.gen).
Proof.
  refine (add_trajectory_out_of_range EdgeScenario.no_slot Scenario.gen
            [0] [0] [10] [1] [0] _).
  simpl. lia.
Defined.

Lemma sampled_entries_replay_recent_insertions_witness :
  exists b',
    ReplayBuffer.add_all EdgeScenario.four
      (ReplayBuffer.mkHeap Scenario.fresh Scenario.gen)
    = (Py.Ok tt, ReplayBuffer.mkHeap b' Scenario.gen) /\
    forall n dt g' batch h',
      ReplayBuffer.sample n dt (ReplayBuffer.mkHeap b' g') = (Py.Ok batch, h') ->
      exists inds g'',
        ReplayBuffer.draw_batch_inds n (ReplayBuffer.mkHeap b' g')
        = (Py.Ok inds, ReplayBuffer.mkHeap b' g'') /\
        forall (k : nat) (i : Z),
          inds !! k = Some i ->
          exists t : Z,
            1 < t < 4 /\ t mod 3 = i /\
            Replay.replays EdgeScenario.four batch k t.
Proof.
  refine (sampled_entries_replay_recent_insertions Scenario.fresh Scenario.gen
            EdgeScenario.four _ _ _).
  - unfold ReplayBuffer.well_formed. simpl. lia.
  - reflexivity.
  - reflexivity.
Defined.

Lemma capacity_one_is_never_sampled_witness :
  exists b',
    ReplayBuffer.add_trajectory [0] [0] [10] [1] [0]
      (ReplayBuffer.mkHeap EdgeScenario.single Scenario.gen)
    = (Py.Ok tt, ReplayBuffer.mkHeap b' Scenario.gen) /\
    ReplayBuffer.full b' = true /\ ReplayBuffer.pos b' = 0 /\
    ReplayBuffer.observations b' = [[1]] /\
    ReplayBuffer.sample 1 (TypeAliases.dtype_str "numpy")
      (ReplayBuffer.mkHeap b' Scenario.gen)
    = (Py.Raise (Py.ValueError "low >= high"),
       ReplayBuffer.mkHeap b' Scenario.gen).
Proof.
  refine (capacity_one_is_never_sampled EdgeScenario.single Scenario.gen
            Scenario.gen [0] [0] [10] [1] [0] 1
            (TypeAliases.dtype_str "numpy") TypeAliases.NUMPY _ _ _ _).
  - unfold ReplayBuffer.well_formed. simpl. lia.
  - reflexivity.
  - lia.
  - reflexivity.
Defined.

Lemma sample_batch_shape_witness :
  match ReplayBuffer.sample 4 (TypeAliases.dtype_str "numpy")
          (ReplayBuffer.mkHeap Scenario.filled Scenario.gen) with
  | (Py.Ok batch, _) =>
      length (TypeAliases.data (TypeAliases.observations batch)) = 4%nat /\
      length (TypeAliases.data (TypeAliases.dones batch)) = 4%nat
  | (Py.Raise _, _) => False
  end.
Proof.
  destruct (ReplayBuffer.sample 4 (TypeAliases.dtype_str "numpy")
              (ReplayBuffer.mkHeap Scenario.filled Scenario.gen))
    as [[batch|e] h'] eqn:Hs.
  - destruct (sample_batch_shape _ _ _ _ _ Hs) as (_ & Ho & _ & _ & _ & Hd).
    split; [exact Ho | exact Hd].
  - vm_compute in Hs. discriminate Hs.
Defined.

Lemma sample_entries_share_their_slot_witness :
  match ReplayBuffer.sample 4 (TypeAliases.dtype_str "numpy")
          (ReplayBuffer.mkHeap Scenario.filled Scenario.gen) with
  | (Py.Ok batch, _) =>
      exists inds,
        fst (ReplayBuffer.draw_batch_inds 4
               (ReplayBuffer.mkHeap Scenario.filled Scenario.gen))
        = Py.Ok inds /\
        forall (k : nat) (i : Z),
          inds !! k = Some i ->
          exists r,
            TypeAliases.data (TypeAliases.rewards batch) !! k = Some r /\
            Np.getitem (ReplayBuffer.rewards Scenario.filled) i = Py.Ok r
  | (Py.Raise _, _) => False
  end.
Proof.
  destruct (ReplayBuffer.sample 4 (TypeAliases.dtype_str "numpy")
              (ReplayBuffer.mkHeap Scenario.filled Scenario.gen))
    as [[batch|e] h'] eqn:Hs.
  - destruct (sample_entries_share_their_slot _ _ _ _ _ _ Hs)
      as (inds & g' & Hd & Hall).
    exists inds. split; [rewrite Hd; reflexivity|].
    intros k i Hk.
    destruct (Hall k i Hk) as (o & a & r & d & _ & _ & Hr & _ & _ & _ & Hgr & _).
    exists r. split; assumption.
  - vm_compute in Hs. discriminate Hs.
Defined.

Lemma negative_batch_size_is_refused_witness :
  exists msg,
    ReplayBuffer.sample (-1) (TypeAliases.dtype_member TypeAliases.NUMPY)
      (ReplayBuffer.mkHeap Scenario.filled Scenario.gen)
    = (Py.Raise (Py.ValueError msg),
       ReplayBuffer.mkHeap Scenario.filled Scenario.gen).
Proof.
  refine (negative_batch_size_is_refused Scenario.filled Scenario.gen (-1)
            (TypeAliases.dtype_member TypeAliases.NUMPY) TypeAliases.NUMPY _ _).
  - lia.
  - reflexivity.
Defined.

Lemma run_optimizer_uses_up_its_iterator_witness :
  Py.bind
    (Updater.run_optimizer UpdaterScenario.clipping EdgeScenario.optimizer
       4%float 0%nat)
    (fun _ => Updater.run_optimizer UpdaterScenario.clipping
                EdgeScenario.optimizer 1%float 0%nat)
    EdgeScenario.fresh_iterator
  = (Py.Ok tt,
     Updater.mkWorld [[]]
       [Updater.ZeroGrad ["weight"%string; "bias"%string];
        Updater.Backward 4%float;
        Updater.ClipGradNorm ["weight"%string; "bias"%string] 0.5%float;
        Updater.Step ["weight"%string; "bias"%string] UpdaterScenario.learning_rate;
        Updater.ZeroGrad ["weight"%string; "bias"%string];
        Updater.Backward 1%float;
        Updater.ClipGradNorm [] 0.5%float;
        Updater.Step ["weight"%string; "bias"%string] UpdaterScenario.learning_rate]).
Proof.
  refine (run_optimizer_uses_up_its_iterator UpdaterScenario.clipping
            EdgeScenario.optimizer 4%float 1%float 0%nat
            ["weight"%string; "bias"%string] EdgeScenario.fresh_iterator _ _);
    reflexivity.
Defined.

Lemma call_without_clipping_witness :
  exists w',
    Updater.__call__ UpdaterScenario.model_parameters UpdaterScenario.forward
      UpdaterScenario.item UpdaterScenario.not_clipping UpdaterScenario.model
      1%float 2%float 5%float UpdaterScenario.learning_rate UpdaterScenario.start
    = (Py.Ok (Updater.mkUpdaterLog 4%float), w') /\
    Updater.trace w'
    = [Updater.ZeroGrad ["weight"%string; "bias"%string];
       Updater.Backward 4%float;
       Updater.Step ["weight"%string; "bias"%string] UpdaterScenario.learning_rate].
Proof.
  refine (call_without_clipping UpdaterScenario.model_parameters
            UpdaterScenario.forward UpdaterScenario.item
            UpdaterScenario.not_clipping UpdaterScenario.model
            1%float 2%float 5%float UpdaterScenario.learning_rate
            UpdaterScenario.start _ _).
  - discriminate.
  - reflexivity.
Defined.

Lemma call_on_model_without_parameters_witness :
  exists w',
    Updater.__call__ UpdaterScenario.model_parameters UpdaterScenario.forward
      UpdaterScenario.item UpdaterScenario.clipping EdgeScenario.bare_model
      1%float 2%float 5%float UpdaterScenario.learning_rate UpdaterScenario.start
    = (Py.Raise (Py.ValueError "optimizer got an empty parameter list"), w') /\
    Updater.trace w' = [].
Proof.
  refine (call_on_model_without_parameters UpdaterScenario.model_parameters
            UpdaterScenario.forward UpdaterScenario.item
            UpdaterScenario.clipping EdgeScenario.bare_model
            1%float 2%float 5%float UpdaterScenario.learning_rate
            UpdaterScenario.start _).
  reflexivity.
Defined.

Lemma fit_refuses_negative_epochs_witness :
  AgentScenario.fit 4 1 (-1) AgentScenario.agent
  = (Py.Raise (Py.ValueError "negative dimensions are not allowed"),
     AgentScenario.agent).
Proof.
  refine (fit_refuses_negative_epochs 1 Z.add Z.mul Z.sub AgentScenario.max_q
            AgentScenario.regression_step AgentScenario.np_mean
            4 1 (-1) AgentScenario.agent _).
  lia.
Defined.

Lemma fit_on_unwritten_buffer_raises_witness :
  AgentScenario.fit 4 1 2 EdgeScenario.idle_agent
  = (Py.Raise (Py.ValueError "low >= high"), EdgeScenario.idle_agent).
Proof.
  refine (fit_on_unwritten_buffer_raises 1 Z.add Z.mul Z.sub AgentScenario.max_q
            AgentScenario.regression_step AgentScenario.np_mean
            4 1 2 EdgeScenario.idle_agent _ _ _ _).
  - reflexivity.
  - reflexivity.
  - lia.
  - lia.
Defined.

(** ** Safety: no index leaves the arrays *)

Section SafetyCoverage.
Import Py TypeAliases ReplayBuffer.
Context {Obs Act Rew Done : Type}.

Lemma randint_raises_value_error (low high size : Z) (g g' : Np.RandomState) e :
  Np.randint low high size g = (Raise e, g') -> exists msg, e = ValueError msg.
Proof.
  unfold Np.randint.
  destruct (size =? 0); [discriminate|].
  destruct (high <=? low); [intros H; injection H as <- _; eauto|].
  destruct (size <? 0); [intros H; injection H as <- _; eauto | discriminate].
Qed.

Lemma add_spec_has_env0 (b : ReplayBuffer.t Obs Act Rew Done) o a r o' d :
  has_env0 b -> o <> [] -> a <> [] -> o' <> [] ->
  has_env0 (add_spec b o a r o' d).
Proof.
  intros [Ho Ha] Hno Hna Hno'. unfold has_env0, add_spec. simpl. split.
  - apply Forall_insert; [apply Forall_insert|]; assumption.
  - apply Forall_insert; assumption.
Qed.

(** On a well-formed buffer with an environment, [sample] returns or
    raises a [ValueError]; no read leaves the arrays. *)
Lemma sample_raises_value_error_only
    (b : ReplayBuffer.t Obs Act Rew Done) g n dt :
  well_formed b -> has_env0 b ->
  match fst (sample n dt (mkHeap b g)) with
  | Ok _ => True
  | Raise (ValueError _) => True
  | Raise _ => False
  end.
Proof.
  intros Hwf Henv. unfold sample, bind. rewrite resolve_dtype_pure.
  destruct (fst (resolve_dtype dt (mkHeap b g))) as [m|e] eqn:Hm.
  - pose proof (draw_batch_inds_self b g n) as Hself.
    destruct (draw_batch_inds n (mkHeap b g)) as [[inds|e] [b1 g1]] eqn:Hd;
      simpl in Hself; subst b1.
    + destruct (gather_returns b g1 inds m Hwf Henv) as (batch & -> & _).
      * eapply draw_batch_inds_in_range; eauto.
      * exact I.
    + simpl. rewrite draw_batch_inds_run in Hd.
      destruct (full b).
      * destruct (Np.randint 1 (buffer_size b) n g) as [[l|e'] g2] eqn:Hr;
          [discriminate|].
        injection Hd as <- _.
        destruct (randint_raises_value_error _ _ _ _ _ _ Hr) as [msg ->]. exact I.
      * destruct (Np.randint 0 (pos b) n g) as [[l|e'] g2] eqn:Hr;
          [discriminate|].
        injection Hd as <- _.
        destruct (randint_raises_value_error _ _ _ _ _ _ Hr) as [msg ->]. exact I.
  - simpl. destruct dt as [s|m]; simpl in Hm; [|discriminate].
    unfold TrajectoryType_of_value in Hm.
    destruct (String.eqb (lower s) "numpy"); [discriminate|].
    destruct (String.eqb (lower s) "torch"); [discriminate|].
    injection Hm as <-. exact I.
Qed.

(** X17. Inserting and sampling never reads or writes outside the arrays:
    from a well-formed buffer with an environment, any sequence of
    insertions of transitions whose observation, action and next
    observation have an entry for environment 0 runs without raising, and
    any [sample] afterwards returns a batch or raises a [ValueError] (of the
    dtype or of [np.random.randint]), never an [IndexError] or a
    [ZeroDivisionError]. *)
Theorem insert_and_sample_stay_within_arrays
    (trs : list (Transition Obs Act Rew Done))
    (b : ReplayBuffer.t Obs Act Rew Done) (g : Np.RandomState) :
  well_formed b ->
  has_env0 b ->
  Forall (fun tr => tr_observation tr <> [] /\ tr_action tr <> [] /\
                    tr_next_observation tr <> []) trs ->
  exists b',
    add_all trs (mkHeap b g) = (Ok tt, mkHeap b' g) /\
    well_formed b' /\ has_env0 b' /\
    forall n dt g',
      match fst (sample n dt (mkHeap b' g')) with
      | Ok _ => True
      | Raise (ValueError _) => True
      | Raise _ => False
      end.
Proof.
  revert b. induction trs as [|tr trs IH]; intros b Hwf Henv Hrows.
  - exists b. split; [reflexivity|]. split; [exact Hwf|]. split; [exact Henv|].
    intros n dt g'. apply sample_raises_value_error_only; assumption.
  - apply Forall_cons in Hrows. destruct Hrows as [(Ho & Ha & Ho') Hrows].
    cbn [add_all]. unfold bind, add.
    rewrite add_trajectory_run by exact Hwf.
    apply IH.
    + apply add_spec_well_formed. exact Hwf.
    + apply add_spec_has_env0; assumption.
    + exact Hrows.
Qed.

End SafetyCoverage.

Lemma insert_and_sample_stay_within_arrays_witness :
  exists b',
    ReplayBuffer.add_all EdgeScenario.four
      (ReplayBuffer.mkHeap Scenario.fresh Scenario.gen)
    = (Py.Ok tt, ReplayBuffer.mkHeap b' Scenario.gen) /\
    ReplayBuffer.well_formed b' /\ ReplayBuffer.has_env0 b' /\
    forall n dt g',
      match fst (ReplayBuffer.sample n dt (ReplayBuffer.mkHeap b' g')) with
      | Py.Ok _ => True
      | Py.Raise (Py.ValueError _) => True
      | Py.Raise _ => False
      end.
Proof.
  refine (insert_and_sample_stay_within_arrays EdgeScenario.four Scenario.fresh
            Scenario.gen _ _ _).
  - unfold ReplayBuffer.well_formed. simpl. lia.
  - split; simpl; repeat constructor; discriminate.
  - unfold EdgeScenario.four. repeat constructor; discriminate.
Defined.
